(** * Similarity-sensitive diversity of a metacommunity

    A shallow embedding of [diversity.metacommunity] and
    [diversity.similarity]: relative abundances ([Abundance],
    [SharedAbundance]), abundance-weighted similarities (the in-memory,
    chunked-file and function backends) and the diversity measures of
    [Metacommunity].

    Numbers.  The arrays of the program hold IEEE doubles.  The model keeps
    the special values of IEEE arithmetic (infinities and NaN, which is what
    numpy's division answers on a zero divisor) and replaces the finite
    doubles by exact rationals in canonical form: rounding, overflow and
    underflow are not modelled and signed zeros are identified.  The
    species counts are 64-bit integers, whose sum wraps around.

    Arrays.  A 1-d array is a list, a 2-d array is the list of its rows
    (one row per species, one column per subcommunity); an array without
    rows therefore carries no number of columns. *)

From Stdlib Require Import String.
From Stdlib Require Import List ZArith QArith Qabs Qcanon Bool Lia.
Import ListNotations.

(** ** Exceptions and the error monad *)

Inductive exn : Type :=
| ValueError
| AttributeError
| Unrepresentable
| NotImplementedError (msg : string).

Inductive result (A : Type) : Type :=
| Ok (a : A)
| Raise (e : exn).

Arguments Ok {A} a.
Arguments Raise {A} e.

Definition bind {A B : Type} (r : result A) (k : A -> result B) : result B :=
  match r with
  | Ok a => k a
  | Raise e => Raise e
  end.

Notation "x <- r ;; k" := (bind r (fun x => k))
  (at level 61, r at next level, right associativity).

Fixpoint mapM {A B : Type} (f : A -> result B) (l : list A) : result (list B) :=
  match l with
  | [] => Ok []
  | a :: l' => b <- f a ;; bs <- mapM f l' ;; Ok (b :: bs)
  end.

(** ** Doubles: exact finite values and the IEEE special values *)

Module Float64.

Inductive float64 : Type :=
| Fin (q : Qc)
| PInf
| NInf
| NaN.

Definition of_Q (q : Q) : float64 := Fin (Q2Qc q).
Definition of_Z (z : Z) : float64 := Fin (Q2Qc (inject_Z z)).

Definition zero : float64 := Fin (Q2Qc 0).
Definition one : float64 := Fin (Q2Qc 1).

Definition inf_of (negative : bool) : float64 :=
  if negative then NInf else PInf.

Definition is_neg (q : Qc) : bool :=
  match (q ?= Q2Qc 0)%Qc with Lt => true | _ => false end.

Definition is_zero (q : Qc) : bool := Qc_eq_bool q (Q2Qc 0).

Definition fadd (x y : float64) : float64 :=
  match x, y with
  | NaN, _ | _, NaN => NaN
  | PInf, NInf | NInf, PInf => NaN
  | PInf, _ | _, PInf => PInf
  | NInf, _ | _, NInf => NInf
  | Fin a, Fin b => Fin (a + b)
  end.

Definition fopp (x : float64) : float64 :=
  match x with
  | Fin a => Fin (- a)
  | PInf => NInf
  | NInf => PInf
  | NaN => NaN
  end.

Definition fsub (x y : float64) : float64 := fadd x (fopp y).

(** An infinity times a finite value: NaN at zero, else an infinity whose
    sign is the product of the signs. *)
Definition inf_times (negative : bool) (q : Qc) : float64 :=
  if is_zero q then NaN else inf_of (xorb negative (is_neg q)).

Definition fmul (x y : float64) : float64 :=
  match x, y with
  | NaN, _ | _, NaN => NaN
  | Fin a, Fin b => Fin (a * b)
  | PInf, Fin b => inf_times false b
  | NInf, Fin b => inf_times true b
  | Fin a, PInf => inf_times false a
  | Fin a, NInf => inf_times true a
  | PInf, PInf | NInf, NInf => PInf
  | PInf, NInf | NInf, PInf => NInf
  end.

(** numpy's [true_divide] under the default error state: a zero divisor
    gives a warning and NaN (for 0/0) or an infinity, never an exception.
    The quotient of finite values by a non-zero divisor is the exact
    rational: that a double overflows to an infinity is outside the
    model. *)
Definition fdiv (x y : float64) : float64 :=
  match x, y with
  | NaN, _ | _, NaN => NaN
  | Fin a, Fin b =>
      if is_zero b then
        (if is_zero a then NaN else inf_of (is_neg a))
      else Fin (a / b)
  | Fin _, (PInf | NInf) => zero
  | PInf, Fin b => inf_of (is_neg b)
  | NInf, Fin b => inf_of (negb (is_neg b))
  | (PInf | NInf), (PInf | NInf) => NaN
  end.

(** [x != 0] *)
Definition nonzero (x : float64) : bool :=
  match x with
  | Fin a => negb (is_zero a)
  | _ => true
  end.

(** [x > 0] *)
Definition is_positive (x : float64) : bool :=
  match x with
  | Fin a => match (a ?= Q2Qc 0)%Qc with Gt => true | _ => false end
  | PInf => true
  | _ => false
  end.

Definition finite (x : float64) : bool :=
  match x with Fin _ => true | _ => false end.

(** [x < y], false as soon as a NaN is involved. *)
Definition flt (x y : float64) : bool :=
  match x, y with
  | NaN, _ | _, NaN => false
  | Fin a, Fin b => match (a ?= b)%Qc with Lt => true | _ => false end
  | NInf, (Fin _ | PInf) => true
  | Fin _, PInf => true
  | _, _ => false
  end.

Definition eqb (x y : float64) : bool :=
  match x, y with
  | Fin a, Fin b => Qc_eq_bool a b
  | PInf, PInf | NInf, NInf | NaN, NaN => true
  | _, _ => false
  end.

End Float64.

Import Float64.

Declare Scope float_scope.
Delimit Scope float_scope with float.
Bind Scope float_scope with float64.
Infix "+" := fadd : float_scope.
Infix "-" := fsub : float_scope.
Infix "*" := fmul : float_scope.
Infix "/" := fdiv : float_scope.

Open Scope nat_scope.

(** ** The numpy operations the program uses *)

Module Numpy.

Abbreviation vector := (list float64).
Abbreviation matrix := (list (list float64)).

Fixpoint zip_with {A B C : Type} (f : A -> B -> C) (l : list A) (l' : list B)
  : list C :=
  match l, l' with
  | a :: t, b :: t' => f a b :: zip_with f t t'
  | _, _ => []
  end.

Definition ncols {A : Type} (m : list (list A)) : nat :=
  match m with
  | [] => 0
  | r :: _ => length r
  end.

Definition rectangular {A : Type} (k : nat) (m : list (list A)) : Prop :=
  Forall (fun r => length r = k) m.

(** The value a [numpy.int64] holds when the result of an operation is [z]:
    integer arithmetic wraps around. *)
Definition int64 (z : Z) : Z := ((z + 2 ^ 63) mod 2 ^ 64 - 2 ^ 63)%Z.

(** [a.sum()] of an array of int64, given flat. *)
Definition sum_int64 (l : list Z) : Z := int64 (fold_right Z.add 0%Z l).

(** [a.sum()] of a 1-d array *)
Definition sum (v : vector) : float64 := fold_right fadd zero v.

(** [a.sum()] of a 2-d array *)
Definition sum_all (m : matrix) : float64 := sum (concat m).

(** [a.sum(axis=1, keepdims=True)]: one row sum per row, shape (n, 1) *)
Definition sum_axis1_keepdims (m : matrix) : matrix :=
  map (fun r => [sum r]) m.

(** [a.sum(axis=0)]: one sum per column *)
Definition sum_axis0 (m : matrix) : vector :=
  fold_right (zip_with fadd) (repeat zero (ncols m)) m.

(** [a / s] and [a * s] with a scalar [s] *)
Definition div_scalar (m : matrix) (s : float64) : matrix :=
  map (map (fun x => x / s)%float) m.

(** [a / v] and [a * v] for [a] of shape (n, k) and [v] of shape (k,):
    numpy broadcasts [v] over the rows. *)
Definition div_rows (m : matrix) (v : vector) : matrix :=
  map (fun r => zip_with fdiv r v) m.

Definition mul_rows (m : matrix) (v : vector) : matrix :=
  map (fun r => zip_with fmul r v) m.

(** Column [j] of a 2-d array. *)
Definition col (j : nat) (m : matrix) : vector :=
  map (fun r => nth j r NaN) m.

Definition columns (m : matrix) : list vector :=
  map (fun j => col j m) (seq 0 (ncols m)).

Definition dot (u v : vector) : float64 := sum (zip_with fmul u v).

(** The product [a @ b] when the shapes agree. *)
Definition matmul_rows (a b : matrix) : matrix :=
  map (fun r => map (dot r) (columns b)) a.

(** [a @ b]; numpy raises [ValueError] when the rows of [a] are not as long
    as [b] has rows. *)
Definition matmul (a b : matrix) : result matrix :=
  if forallb (fun r => Nat.eqb (length r) (length b)) a
  then Ok (matmul_rows a b)
  else Raise ValueError.

Definition vec_eqb (u v : vector) : bool :=
  Nat.eqb (length u) (length v) && forallb (fun p => Float64.eqb (fst p) (snd p)) (combine u v).

Definition mat_eqb (a b : matrix) : bool :=
  Nat.eqb (length a) (length b) && forallb (fun p => vec_eqb (fst p) (snd p)) (combine a b).

End Numpy.

Import Numpy.

(** ** [Abundance] (metacommunity.py, class Abundance)

    [counts] is the int64 array of species counts; the four cached
    properties are pure functions of it.  The quotients and their sums are
    exact in the model.  The properties that depend on whether a sum is
    zero are stated for counts that are not negative: there the rounded
    sums of the program are zero exactly when the exact ones are. *)

Module Abundance.

Definition counts_t := list (list Z).

(** [self.counts.sum()], an int64. *)
Definition total_abundance (counts : counts_t) : Z :=
  sum_int64 (concat counts).

Definition subcommunity_abundance (counts : counts_t) : matrix :=
  let total_abundance := total_abundance counts in
  map (map (fun c => of_Z c / of_Z total_abundance)%float) counts.

Definition metacommunity_abundance (counts : counts_t) : matrix :=
  sum_axis1_keepdims (subcommunity_abundance counts).

Definition subcommunity_normalizing_constants (counts : counts_t) : vector :=
  sum_axis0 (subcommunity_abundance counts).

Definition normalized_subcommunity_abundance (counts : counts_t) : matrix :=
  div_rows (subcommunity_abundance counts)
           (subcommunity_normalizing_constants counts).

(** The total count of every subcommunity, one per column of [counts]. *)
Definition column_totals (counts : counts_t) : list Z :=
  fold_right (zip_with Z.add) (repeat 0%Z (ncols counts)) counts.

End Abundance.

(** ** The shared array (diversity.shared)

    [SharedAbundance] is given a [SharedArrayView], reads and writes its
    array [data] and assigns the attribute [writable] of [data.flags].
    The module diversity.shared is not among the sources, so they do not
    fix the class of [data].  For a numpy.ndarray, which is what the
    calls [data.sum(axis=0)], [data.shape] and [data.dtype] are those of,
    [flags] is numpy's [flagsobj]: its flag is called [writeable], it has
    no attribute [writable] and, having no instance dictionary, takes
    none, so the assignment raises [AttributeError].  The other case
    modelled is a [flags] object that keeps the attribute once it is
    assigned. *)

Module SharedArrayView.

Inductive flags_t : Type :=
| flagsobj
| namespace (writable : option bool).

Record t : Type := mk {
  data : matrix;
  flags : flags_t
}.

(** [flags.writable = value] *)
Definition set_writable (f : flags_t) (value : bool) : result flags_t :=
  match f with
  | flagsobj => Raise AttributeError
  | namespace _ => Ok (namespace (Some value))
  end.

End SharedArrayView.

(** ** [SharedAbundance] (metacommunity.py, class SharedAbundance)

    One buffer holds the counts, the relative subcommunity abundances or
    their normalized form, and is rescaled in place on demand.  The object
    is a record of its private attributes, and a property is a function
    from the object before the call to the outcome of the call together
    with the object after it, also when the call raises: the statements of
    a property are composed in that state-and-error monad.  The array a
    property returns is the buffer itself: the value modelled is its
    content when the call returns. *)

Module SharedAbundance.

Inductive stored : Type :=
| counts
| subcommunity_abundances
| normalized_subcommunity_abundances.

Record t : Type := mk {
  __shared_data : SharedArrayView.t;
  __stores : stored;
  __total_abundance : float64;
  __subcommunity_normalizing_constants : vector;
  __metacommunity_abundance : option matrix
}.

Definition set_shared_data (self : t) (view : SharedArrayView.t) : t :=
  {| __shared_data := view;
     __stores := __stores self;
     __total_abundance := __total_abundance self;
     __subcommunity_normalizing_constants :=
       __subcommunity_normalizing_constants self;
     __metacommunity_abundance := __metacommunity_abundance self |}.

Definition set_stores (self : t) (now : stored) : t :=
  {| __shared_data := __shared_data self;
     __stores := now;
     __total_abundance := __total_abundance self;
     __subcommunity_normalizing_constants :=
       __subcommunity_normalizing_constants self;
     __metacommunity_abundance := __metacommunity_abundance self |}.

Definition set_metacommunity_abundance (self : t) (m : matrix) : t :=
  {| __shared_data := __shared_data self;
     __stores := __stores self;
     __total_abundance := __total_abundance self;
     __subcommunity_normalizing_constants :=
       __subcommunity_normalizing_constants self;
     __metacommunity_abundance := Some m |}.

(** [__init__], with [view] for its argument [counts].  The assignment to
    [flags.writable] comes before the sums. *)
Definition init (view : SharedArrayView.t) : result t :=
  flags <- SharedArrayView.set_writable (SharedArrayView.flags view) false ;;
  let data := SharedArrayView.data view in
  let total := sum_all data in
  Ok {| __shared_data := SharedArrayView.mk data flags;
        __stores := counts;
        __total_abundance := total;
        __subcommunity_normalizing_constants :=
          map (fun s => s / total)%float (sum_axis0 data);
        __metacommunity_abundance := None |}.

(** The operand [v] of shape (k,) as numpy broadcasts it against a row of
    [c] entries: a one-element operand is repeated. *)
Definition expand (c : nat) (v : vector) : vector :=
  match v with
  | [x] => repeat x c
  | _ => v
  end.

(** [a op= v] for [a] of shape (n, c) and [v] of shape (k,).  The result of
    broadcasting must have the shape of [a], so numpy raises [ValueError]
    unless k = c or k = 1; nothing is written in that case. *)
Definition inplace (op : float64 -> float64 -> float64) (a : matrix)
  (v : vector) : result matrix :=
  if forallb (fun r => Nat.eqb (length v) 1 || Nat.eqb (length r) (length v)) a
  then Ok (map (fun r => zip_with op r (expand (length r) v)) a)
  else Raise ValueError.

(** *** The statements of a property *)

Definition M (A : Type) : Type := t -> result A * t.

Definition ret {A : Type} (a : A) : M A := fun self => (Ok a, self).

Definition and_then {A B : Type} (m : M A) (k : A -> M B) : M B :=
  fun self =>
    match m self with
    | (Ok a, self') => k a self'
    | (Raise e, self') => (Raise e, self')
    end.

Notation "x <~ m ;; k" := (and_then m (fun x => k))
  (at level 61, m at next level, right associativity).
Notation "m >> k" := (and_then m (fun _ => k))
  (at level 61, right associativity).

(** The value of an attribute of [self]. *)
Definition get {A : Type} (attribute : t -> A) : M A :=
  fun self => (Ok (attribute self), self).

(** [self.__shared_data.data.flags.writable = value] *)
Definition flags_writable (value : bool) : M unit :=
  fun self =>
    let view := __shared_data self in
    match SharedArrayView.set_writable (SharedArrayView.flags view) value with
    | Ok flags =>
        (Ok tt,
         set_shared_data self
           (SharedArrayView.mk (SharedArrayView.data view) flags))
    | Raise e => (Raise e, self)
    end.

(** [self.__shared_data.data op= operand]; when the operation raises
    nothing has been written. *)
Definition data_inplace (operation : matrix -> result matrix) : M unit :=
  fun self =>
    let view := __shared_data self in
    match operation (SharedArrayView.data view) with
    | Ok data =>
        (Ok tt,
         set_shared_data self
           (SharedArrayView.mk data (SharedArrayView.flags view)))
    | Raise e => (Raise e, self)
    end.

(** [self.__stores = now] *)
Definition stores (now : stored) : M unit :=
  fun self => (Ok tt, set_stores self now).

(** [self.__metacommunity_abundance = ...], a new array [m] *)
Definition new_metacommunity_abundance (m : matrix) : M unit :=
  fun self => (Ok tt, set_metacommunity_abundance self m).

(** [self.__metacommunity_abundance.data op= operand] *)
Definition metacommunity_abundance_inplace
  (operation : matrix -> result matrix) : M unit :=
  fun self =>
    match __metacommunity_abundance self with
    | Some m =>
        match operation m with
        | Ok m' => (Ok tt, set_metacommunity_abundance self m')
        | Raise e => (Raise e, self)
        end
    | None => (Raise AttributeError, self)
    end.

(** [self.__metacommunity_abundance.data] *)
Definition metacommunity_abundance_data : M matrix :=
  fun self =>
    match __metacommunity_abundance self with
    | Some m => (Ok m, self)
    | None => (Raise AttributeError, self)
    end.

(** *** The properties *)

Definition subcommunity_abundance : M matrix :=
  flags_writable true >>
  (now <~ get __stores ;;
   match now with
   | counts =>
       total_abundance <~ get __total_abundance ;;
       data_inplace (fun data => Ok (div_scalar data total_abundance))
   | normalized_subcommunity_abundances =>
       constants <~ get __subcommunity_normalizing_constants ;;
       data_inplace (fun data => inplace fmul data constants)
   | subcommunity_abundances => ret tt
   end) >>
  flags_writable false >>
  stores subcommunity_abundances >>
  get (fun self => SharedArrayView.data (__shared_data self)).

(** The row sums are those of the array of the shared view (the source
    calls [sum] on the view itself, whose class is not among the sources),
    written into a new array.  The attribute is assigned the new array
    before the row sums are scaled, so it stays set when the scaling
    raises. *)
Definition metacommunity_abundance : M matrix :=
  (cached <~ get __metacommunity_abundance ;;
   match cached with
   | Some _ => ret tt
   | None =>
       row_sums <~ get (fun self =>
                          sum_axis1_keepdims
                            (SharedArrayView.data (__shared_data self))) ;;
       new_metacommunity_abundance row_sums >>
       now <~ get __stores ;;
       match now with
       | counts =>
           total_abundance <~ get __total_abundance ;;
           metacommunity_abundance_inplace
             (fun m => Ok (div_scalar m total_abundance))
       | normalized_subcommunity_abundances =>
           constants <~ get __subcommunity_normalizing_constants ;;
           metacommunity_abundance_inplace
             (fun m => inplace fmul m constants)
       | subcommunity_abundances => ret tt
       end
   end) >>
  metacommunity_abundance_data.

Definition subcommunity_normalizing_constants : M vector :=
  get __subcommunity_normalizing_constants.

Definition normalized_subcommunity_abundance : M matrix :=
  flags_writable true >>
  (now <~ get __stores ;;
   match now with
   | counts =>
       total_abundance <~ get __total_abundance ;;
       constants <~ get __subcommunity_normalizing_constants ;;
       data_inplace
         (fun data => inplace fdiv data (map (fmul total_abundance) constants))
   | subcommunity_abundances =>
       constants <~ get __subcommunity_normalizing_constants ;;
       data_inplace (fun data => inplace fdiv data constants)
   | normalized_subcommunity_abundances => ret tt
   end) >>
  flags_writable false >>
  stores normalized_subcommunity_abundances >>
  get (fun self => SharedArrayView.data (__shared_data self)).

End SharedAbundance.

(** ** The four accessors of [IAbundance], and sequences of accesses *)

Inductive accessor : Type :=
| Subcommunity_abundance
| Metacommunity_abundance
| Subcommunity_normalizing_constants
| Normalized_subcommunity_abundance.

Inductive ndarray : Type :=
| Array1 (v : vector)
| Array2 (m : matrix).

Definition lift {A B S : Type} (f : A -> B) (r : result A * S) : result B * S :=
  (match fst r with Ok a => Ok (f a) | Raise e => Raise e end, snd r).

Definition shared_access (a : accessor) (self : SharedAbundance.t)
  : result ndarray * SharedAbundance.t :=
  match a with
  | Subcommunity_abundance =>
      lift Array2 (SharedAbundance.subcommunity_abundance self)
  | Metacommunity_abundance =>
      lift Array2 (SharedAbundance.metacommunity_abundance self)
  | Subcommunity_normalizing_constants =>
      lift Array1 (SharedAbundance.subcommunity_normalizing_constants self)
  | Normalized_subcommunity_abundance =>
      lift Array2 (SharedAbundance.normalized_subcommunity_abundance self)
  end.

(** The outcomes of a sequence of accesses to one object, in order; an
    access that raises is caught by the caller and the sequence goes on. *)
Fixpoint shared_accesses (l : list accessor) (self : SharedAbundance.t)
  : list (result ndarray) :=
  match l with
  | [] => []
  | a :: l' =>
      let (r, self') := shared_access a self in
      r :: shared_accesses l' self'
  end.

Definition plain_access (a : accessor) (counts : Abundance.counts_t) : ndarray :=
  match a with
  | Subcommunity_abundance => Array2 (Abundance.subcommunity_abundance counts)
  | Metacommunity_abundance => Array2 (Abundance.metacommunity_abundance counts)
  | Subcommunity_normalizing_constants =>
      Array1 (Abundance.subcommunity_normalizing_constants counts)
  | Normalized_subcommunity_abundance =>
      Array2 (Abundance.normalized_subcommunity_abundance counts)
  end.

(** The shared array filled with the counts, as doubles. *)
Definition view_of_counts (flags : SharedArrayView.flags_t)
  (counts : Abundance.counts_t) : SharedArrayView.t :=
  SharedArrayView.mk (map (map of_Z) counts) flags.

(** The object is built on a shared array and then accessed. *)
Definition shared_session (l : list accessor) (view : SharedArrayView.t)
  : result (list (result ndarray)) :=
  self <- SharedAbundance.init view ;;
  Ok (shared_accesses l self).

(** ** Similarity backends (similarity.py) *)

(** The interface [Similarity]: one method, [weighted_similarities]. *)
Class Similarity (T : Type) : Type := {
  weighted_similarities : T -> matrix -> result matrix
}.

(** [SimilarityFromDataFrame] and [SimilarityFromArray]: the matrix is held
    in memory and the weighted similarities are one matrix product. *)
Module SimilarityFromArray.

Record t : Type := mk { similarity : matrix }.

Definition weighted_similarities (self : t) (relative_abundances : matrix)
  : result matrix :=
  matmul (similarity self) relative_abundances.

End SimilarityFromArray.

#[export] Instance SimilarityFromArray_Similarity : Similarity SimilarityFromArray.t :=
  {| weighted_similarities := SimilarityFromArray.weighted_similarities |}.

(** [SimilarityFromFile]: the matrix is a delimited file, read a chunk of
    rows at a time.  A file is modelled by what [read_csv] parses from it:
    the header and the numeric rows below it. *)
Module SimilarityFromFile.

Record csv : Type := mk_csv {
  header : list string;
  rows : matrix
}.

Record t : Type := mk {
  similarity : csv;
  chunk_size : nat
}.

(** [numpy.empty(shape)]: an array of the given shape whose entries are
    whatever the memory holds. *)
Definition empty (shape : nat * nat) (memory : nat -> nat -> float64) : matrix :=
  map (fun i => map (memory i) (seq 0 (snd shape))) (seq 0 (fst shape)).

Definition shape (a : matrix) : nat * nat := (length a, ncols a).

(** The rows of a file, [chunk_size] at a time, the last chunk with what
    is left. *)
Fixpoint chunks_from (fuel chunk_size : nat) (rows : matrix) : list matrix :=
  match fuel with
  | O => []
  | S fuel' =>
      match rows with
      | [] => []
      | _ => firstn chunk_size rows
               :: chunks_from fuel' chunk_size (skipn chunk_size rows)
      end
  end.

(** The iterator of [read_csv(..., chunksize=chunk_size)].  pandas always
    gives a first chunk: for a file without a row below its header that
    is one chunk without rows. *)
Definition chunks (chunk_size : nat) (rows : matrix) : list matrix :=
  match rows with
  | [] => [[]]
  | _ => chunks_from (length rows) chunk_size rows
  end.

Definition read_csv (file : csv) (chunksize : nat) : result (list matrix) :=
  if Nat.eqb chunksize 0 then Raise ValueError
  else Ok (chunks chunksize (rows file)).

(** [a[start:stop, :] = block].  The slice is clipped to the rows of [a];
    the block must have as many rows as the slice, or one row, which is
    then repeated; otherwise numpy raises [ValueError]. *)
Definition setitem_rows (a : matrix) (start stop : nat) (block : matrix)
  : result matrix :=
  let stop' := Nat.min stop (length a) in
  let len := stop' - start in
  if Nat.eqb (length block) len then
    Ok (firstn start a ++ block ++ skipn (start + len) a)
  else
    match block with
    | [r] => Ok (firstn start a ++ repeat r len ++ skipn (start + len) a)
    | _ => Raise ValueError
    end.

(** The body of the [for chunk in similarity_matrix_chunks] loop, from row
    offset [i] on. *)
Fixpoint store_chunks (chunk_size : nat) (relative_abundances : matrix)
  (chunks : list matrix) (i : nat) (weighted : matrix) : result matrix :=
  match chunks with
  | [] => Ok weighted
  | chunk :: chunks' =>
      block <- matmul chunk relative_abundances ;;
      weighted' <- setitem_rows weighted i (i + chunk_size) block ;;
      store_chunks chunk_size relative_abundances chunks' (i + chunk_size)
                   weighted'
  end.

Definition weighted_similarities (memory : nat -> nat -> float64) (self : t)
  (relative_abundances : matrix) : result matrix :=
  let weighted_similarities := empty (shape relative_abundances) memory in
  similarity_matrix_chunks <- read_csv (similarity self) (chunk_size self) ;;
  store_chunks (chunk_size self) relative_abundances similarity_matrix_chunks
               0 weighted_similarities.

End SimilarityFromFile.

#[export] Instance SimilarityFromFile_Similarity (memory : nat -> nat -> float64)
  : Similarity SimilarityFromFile.t :=
  {| weighted_similarities := SimilarityFromFile.weighted_similarities memory |}.

(** [SimilarityFromFunction]: similarities are computed from the feature
    rows [X] of the species by a function, one chunk of rows per task.  The
    tasks are pure and [get] returns their results in submission order, so
    the pool is modelled by mapping the task over the chunk offsets. *)
Module SimilarityFromFunction.

Section Features.

(** The type of a feature row. *)
Variable F : Type.

Record t : Type := mk {
  similarity : F -> F -> float64;
  X : list F;
  chunk_size : nat
}.

Definition weighted_similarity_chunk (similarity : F -> F -> float64)
  (X : list F) (relative_abundances : matrix) (chunk_size i : nat)
  : result matrix :=
  let chunk := firstn chunk_size (skipn i X) in
  let similarities_chunk :=
    map (fun row_i => map (fun row_j => similarity row_i row_j) X) chunk in
  matmul similarities_chunk relative_abundances.

(** [range(start, stop, step)] for a positive [step]. *)
Fixpoint range_from (fuel start stop step : nat) : list nat :=
  match fuel with
  | O => []
  | S fuel' =>
      if Nat.ltb start stop
      then start :: range_from fuel' (start + step) stop step
      else []
  end.

(** [range(0, stop, step)]; a zero step raises [ValueError]. *)
Definition range (stop step : nat) : result (list nat) :=
  if Nat.eqb step 0 then Raise ValueError
  else Ok (range_from stop 0 stop step).

(** [numpy.concatenate] along the first axis; an empty sequence of arrays
    raises [ValueError]. *)
Definition concatenate (arrays : list matrix) : result matrix :=
  match arrays with
  | [] => Raise ValueError
  | _ => Ok (concat arrays)
  end.

Definition weighted_similarities (self : t) (relative_abundances : matrix)
  : result matrix :=
  offsets <- range (length (X self)) (chunk_size self) ;;
  weighted_similarity_chunks <-
    mapM (fun i =>
            weighted_similarity_chunk (similarity self) (X self)
              relative_abundances (chunk_size self) i)
         offsets ;;
  concatenate weighted_similarity_chunks.

(** The full matrix of pairwise similarities, which the backend never
    builds: entry (i, j) is [similarity X[i] X[j]]. *)
Definition similarity_matrix (similarity : F -> F -> float64) (X : list F)
  : matrix :=
  map (fun row_i => map (fun row_j => similarity row_i row_j) X) X.

End Features.

Arguments mk {F} similarity X chunk_size.
Arguments similarity {F} t.
Arguments X {F} t.
Arguments chunk_size {F} t.
Arguments weighted_similarity_chunk {F} similarity X relative_abundances
  chunk_size i.
Arguments weighted_similarities {F} self relative_abundances.
Arguments similarity_matrix {F} similarity X.

End SimilarityFromFunction.

#[export] Instance SimilarityFromFunction_Similarity (F : Type)
  : Similarity (SimilarityFromFunction.t F) :=
  {| weighted_similarities := @SimilarityFromFunction.weighted_similarities F |}.

(** [make_similarity]: the backend is chosen by the class of the argument
    [similarity]. *)
Module MakeSimilarity.

Section Features.

Variable F : Type.

(** The Python values [make_similarity] can be given, by class. *)
Inductive pyobject : Type :=
| PyNone
| PyDataFrame (m : matrix)
| PyNdarray (m : matrix)
| PyMemmap (m : matrix)
| PyStr (file : SimilarityFromFile.csv)
| PyFunction (f : F -> F -> float64)
| PyOther (type_name : string).

Inductive backend : Type :=
| FromDataFrame (s : SimilarityFromArray.t)
| FromArray (s : SimilarityFromArray.t)
| FromFile (s : SimilarityFromFile.t)
| FromFunction (s : SimilarityFromFunction.t F).

Definition unsupported (type_name : string) : string :=
  ("Type " ++ type_name ++ " is not supported for argument 'similarity'."
   ++ "Valid types include pandas.DataFram, numpy.ndarray, numpy.memmap,"
   ++ " str, or typing.Callable")%string.

(** The result is [Ok None] when the function returns Python's [None]. *)
Definition make_similarity (similarity : pyobject) (X : list F)
  (chunk_size : nat) : result (option backend) :=
  match similarity with
  | PyNone => Ok None
  | PyDataFrame m => Ok (Some (FromDataFrame (SimilarityFromArray.mk m)))
  | PyNdarray m | PyMemmap m => Ok (Some (FromArray (SimilarityFromArray.mk m)))
  | PyStr file => Ok (Some (FromFile (SimilarityFromFile.mk file chunk_size)))
  | PyFunction f =>
      Ok (Some (FromFunction (SimilarityFromFunction.mk f X chunk_size)))
  | PyOther type_name => Raise (NotImplementedError (unsupported type_name))
  end.

End Features.

Arguments PyNone {F}.
Arguments PyOther {F} type_name.
Arguments make_similarity {F} similarity X chunk_size.

End MakeSimilarity.

(** ** [power_mean] (diversity.utilities) *)

Module Utilities.

(** Modelled from the spec: [diversity.utilities.power_mean] is not among
    the sources.  The spec gives the weighted power mean of [items] along
    the reduction axis as (sum_i w_i * v_i^order)^(1/order) in the general
    case.  At order 1 that is the weighted sum of the items, a rational
    function of the entries, which is the case modelled.  Every other order
    takes a root, an exponential or a logarithm (order 0, fractional orders)
    or is a limit (infinite orders); exact rational arithmetic has none of
    them, and the model answers [Unrepresentable] there, which stands for no
    outcome of the program. *)
Definition power_mean (order : float64) (weights items : vector)
  : result float64 :=
  match order with
  | Fin p =>
      if Qc_eq_bool p (Q2Qc 1)
      then Ok (sum (zip_with fmul weights items))
      else Raise Unrepresentable
  | _ => Raise Unrepresentable
  end.

End Utilities.

(** ** [Metacommunity] (metacommunity.py, class Metacommunity) *)

(** The interface [ISimilarity] of metacommunity.py. *)
Class ISimilarity (T : Type) : Type := {
  calculate_weighted_similarities : T -> matrix -> result matrix
}.

(** The interface [IAbundance], for implementations without state. *)
Class IAbundance (T : Type) : Type := {
  subcommunity_abundance : T -> matrix;
  metacommunity_abundance : T -> matrix;
  subcommunity_normalizing_constants : T -> vector;
  normalized_subcommunity_abundance : T -> matrix
}.

#[export] Instance Abundance_IAbundance : IAbundance Abundance.counts_t :=
  {| subcommunity_abundance := Abundance.subcommunity_abundance;
     metacommunity_abundance := Abundance.metacommunity_abundance;
     subcommunity_normalizing_constants :=
       Abundance.subcommunity_normalizing_constants;
     normalized_subcommunity_abundance :=
       Abundance.normalized_subcommunity_abundance |}.

(** [SimilarityFromMemory] of metacommunity.py, with the data frame already
    reindexed to the species order: the values of [similarity_matrix]. *)
Module SimilarityFromMemory.

Record t : Type := mk { similarity_matrix : matrix }.

Definition calculate_weighted_similarities (self : t)
  (relative_abundances : matrix) : result matrix :=
  matmul (similarity_matrix self) relative_abundances.

End SimilarityFromMemory.

#[export] Instance SimilarityFromMemory_ISimilarity
  : ISimilarity SimilarityFromMemory.t :=
  {| calculate_weighted_similarities :=
       SimilarityFromMemory.calculate_weighted_similarities |}.

Module Metacommunity.

(** An operand of [numpy.divide]: a Python scalar or an array. *)
Inductive operand : Type :=
| Scalar (x : float64)
| Array (m : matrix).

(** A list of length [n], or a one-element list repeated [n] times, as
    numpy broadcasts one axis; any other length raises [ValueError]. *)
Definition broadcast {A : Type} (n : nat) (l : list A) : result (list A) :=
  if Nat.eqb (length l) n then Ok l
  else match l with
       | [x] => Ok (repeat x n)
       | _ => Raise ValueError
       end.

(** [numpy.broadcast_to(a, shape)] for a 2-d array. *)
Definition broadcast_to (a : matrix) (shape : nat * nat) : result matrix :=
  rows <- broadcast (fst shape) a ;;
  mapM (broadcast (snd shape)) rows.

(** One entry of [divide(n, d, out=zeros(...), where=d != 0)]: the quotient
    where the denominator is not 0, the 0 of [out] elsewhere. *)
Definition divide_entry (n d : float64) : float64 :=
  if nonzero d then (n / d)%float else zero.

(** [divide(numerator, denominator, out=zeros(denominator.shape),
    where=denominator != 0)] *)
Definition divide (numerator : operand) (denominator : matrix)
  : result matrix :=
  match numerator with
  | Scalar x => Ok (map (map (divide_entry x)) denominator)
  | Array m =>
      rows <- broadcast (length denominator) m ;;
      mapM (fun p =>
              n <- broadcast (length (snd p)) (fst p) ;;
              Ok (zip_with divide_entry n (snd p)))
           (combine rows denominator)
  end.

(** The columns of a data frame of subcommunity measures; [viewpoint] is a
    scalar, repeated on every row. *)
Record frame : Type := mk_frame {
  community : list string;
  viewpoint : float64;
  alpha : vector;
  rho : vector;
  beta : vector;
  gamma : vector;
  normalized_alpha : vector;
  normalized_rho : vector;
  normalized_beta : vector
}.

Section Measures.

Context {S A : Type} `{ISimilarity S} `{IAbundance A}.

(** [diversity.utilities.power_mean], which is not among the sources, for a
    1-d array of weights and of items. *)
Variable power_mean : float64 -> vector -> vector -> result float64.

Variable similarity : S.
Variable abundance : A.

(** [self.abundance.subcommunity_order], an attribute that [IAbundance]
    does not declare. *)
Variable subcommunity_order : list string.

(** [power_mean] on 2-d arrays reduces along the species axis, one column
    of weights and of items at a time. *)
Definition power_mean_axis0 (order : float64) (weights items : matrix)
  : result vector :=
  mapM (fun j => power_mean order (col j weights) (col j items))
       (seq 0 (ncols items)).

Definition metacommunity_similarity : result matrix :=
  calculate_weighted_similarities similarity (metacommunity_abundance abundance).

Definition subcommunity_similarity : result matrix :=
  calculate_weighted_similarities similarity (subcommunity_abundance abundance).

Definition normalized_subcommunity_similarity : result matrix :=
  calculate_weighted_similarities similarity
    (normalized_subcommunity_abundance abundance).

(** [__subcommunity_measure] *)
Definition subcommunity_measure (viewpoint : float64) (numerator : operand)
  (denominator : matrix) : result vector :=
  similarities <- divide numerator denominator ;;
  power_mean_axis0 (one - viewpoint)%float
    (normalized_subcommunity_abundance abundance) similarities.

(** [__metacommunity_measure] *)
Definition metacommunity_measure (viewpoint : float64)
  (subcommunity_function : float64 -> result vector) : result float64 :=
  subcommunity_measure <- subcommunity_function viewpoint ;;
  power_mean (one - viewpoint)%float
    (subcommunity_normalizing_constants abundance) subcommunity_measure.

Definition subcommunity_alpha (viewpoint : float64) : result vector :=
  denominator <- subcommunity_similarity ;;
  subcommunity_measure viewpoint (Scalar one) denominator.

Definition subcommunity_rho (viewpoint : float64) : result vector :=
  numerator <- metacommunity_similarity ;;
  denominator <- subcommunity_similarity ;;
  subcommunity_measure viewpoint (Array numerator) denominator.

Definition subcommunity_beta (viewpoint : float64) : result vector :=
  rho <- subcommunity_rho viewpoint ;;
  Ok (map (fdiv one) rho).

Definition subcommunity_gamma (viewpoint : float64) : result vector :=
  metacommunity_similarity <- metacommunity_similarity ;;
  denominator <- broadcast_to metacommunity_similarity
                   (SimilarityFromFile.shape
                      (normalized_subcommunity_abundance abundance)) ;;
  subcommunity_measure viewpoint (Scalar one) denominator.

Definition normalized_subcommunity_alpha (viewpoint : float64) : result vector :=
  denominator <- normalized_subcommunity_similarity ;;
  subcommunity_measure viewpoint (Scalar one) denominator.

Definition normalized_subcommunity_rho (viewpoint : float64) : result vector :=
  numerator <- metacommunity_similarity ;;
  denominator <- normalized_subcommunity_similarity ;;
  subcommunity_measure viewpoint (Array numerator) denominator.

Definition normalized_subcommunity_beta (viewpoint : float64) : result vector :=
  rho <- normalized_subcommunity_rho viewpoint ;;
  Ok (map (fdiv one) rho).

Definition metacommunity_alpha (viewpoint : float64) : result float64 :=
  metacommunity_measure viewpoint subcommunity_alpha.

Definition metacommunity_rho (viewpoint : float64) : result float64 :=
  metacommunity_measure viewpoint subcommunity_rho.

Definition metacommunity_beta (viewpoint : float64) : result float64 :=
  metacommunity_measure viewpoint subcommunity_beta.

Definition metacommunity_gamma (viewpoint : float64) : result float64 :=
  metacommunity_measure viewpoint subcommunity_gamma.

Definition normalized_metacommunity_alpha (viewpoint : float64) : result float64 :=
  metacommunity_measure viewpoint normalized_subcommunity_alpha.

Definition normalized_metacommunity_rho (viewpoint : float64) : result float64 :=
  metacommunity_measure viewpoint normalized_subcommunity_rho.

Definition normalized_metacommunity_beta (viewpoint : float64) : result float64 :=
  metacommunity_measure viewpoint normalized_subcommunity_beta.

(** [DataFrame({...})]: pandas raises [ValueError] unless all the array
    columns have the same length. *)
Definition DataFrame (f : frame) : result frame :=
  let n := length (community f) in
  if forallb (fun c => Nat.eqb (length c) n)
       [alpha f; rho f; beta f; gamma f; normalized_alpha f;
        normalized_rho f; normalized_beta f]
  then Ok f
  else Raise ValueError.

Definition subcommunities_to_dataframe (viewpoint : float64) : result frame :=
  alpha <- subcommunity_alpha viewpoint ;;
  rho <- subcommunity_rho viewpoint ;;
  beta <- subcommunity_beta viewpoint ;;
  gamma <- subcommunity_gamma viewpoint ;;
  normalized_alpha <- normalized_subcommunity_alpha viewpoint ;;
  normalized_rho <- normalized_subcommunity_rho viewpoint ;;
  normalized_beta <- normalized_subcommunity_beta viewpoint ;;
  DataFrame
    {| community := subcommunity_order;
       viewpoint := viewpoint;
       alpha := alpha;
       rho := rho;
       beta := beta;
       gamma := gamma;
       normalized_alpha := normalized_alpha;
       normalized_rho := normalized_rho;
       normalized_beta := normalized_beta |}.

End Measures.

End Metacommunity.

(** * Properties *)

(** ** Arithmetic of the model *)

(** Closed equations between arrays are settled by evaluation: both sides
    are computed and the rationals compared through their canonical forms. *)
Ltac by_evaluation :=
  vm_compute;
  repeat match goal with
         | |- @eq Qc _ _ => apply Qc_is_canon; reflexivity
         | |- _ => reflexivity
         | |- _ => progress f_equal
         end.

(** The integer [z] as a canonical rational. *)
Definition zc (z : Z) : Qc := Q2Qc (inject_Z z).

Lemma zc_add a b : zc (a + b) = (zc a + zc b)%Qc.
Proof.
  unfold zc, Qcplus. apply Q2Qc_eq_iff. cbn [this Q2Qc].
  rewrite !Qred_correct. rewrite inject_Z_plus. reflexivity.
Qed.

Lemma zc_eq_0 z : zc z = Q2Qc 0 -> z = 0%Z.
Proof.
  unfold zc. intros E. apply Q2Qc_eq_iff in E.
  unfold Qeq in E. simpl in E. lia.
Qed.

Lemma is_zero_true q : is_zero q = true <-> q = Q2Qc 0.
Proof.
  unfold is_zero. split; intros E.
  - apply Qc_eq_bool_correct; assumption.
  - subst. unfold Qc_eq_bool. destruct (Qc_eq_dec (Q2Qc 0) (Q2Qc 0)); congruence.
Qed.

Lemma fadd_assoc x y z : (x + (y + z) = (x + y) + z)%float.
Proof.
  destruct x, y, z; simpl; try reflexivity. f_equal. ring.
Qed.

Lemma fadd_zero_l x : (zero + x)%float = x.
Proof. destruct x; simpl; try reflexivity. f_equal. ring. Qed.

Lemma sum_app u v : sum (u ++ v) = (sum u + sum v)%float.
Proof.
  unfold sum. induction u as [|x u IH]; simpl.
  - symmetry. apply fadd_zero_l.
  - rewrite IH. apply fadd_assoc.
Qed.

Lemma sum_concat m : sum (concat m) = sum (map sum m).
Proof.
  induction m as [|r m IH]; simpl; [reflexivity|].
  rewrite sum_app, IH. reflexivity.
Qed.

Fixpoint qsum (l : list Qc) : Qc :=
  match l with [] => Q2Qc 0 | x :: l' => (x + qsum l')%Qc end.

Lemma sum_cons x v : sum (x :: v) = (x + sum v)%float.
Proof. reflexivity. Qed.

Lemma sum_Fin l : sum (map Fin l) = Fin (qsum l).
Proof.
  induction l as [|x l IH]; [reflexivity|].
  cbn [map qsum]. rewrite sum_cons, IH. reflexivity.
Qed.

Lemma fdiv_of_Z c t : t <> 0%Z -> (of_Z c / of_Z t)%float = Fin (zc c / zc t).
Proof.
  intros Ht. unfold of_Z. simpl.
  destruct (is_zero (Q2Qc (inject_Z t))) eqn:E; [|reflexivity].
  apply is_zero_true, zc_eq_0 in E. contradiction.
Qed.

Lemma qsum_div (l : list Z) (t : Z) :
  qsum (map (fun c => zc c / zc t)%Qc l) = (zc (fold_right Z.add 0%Z l) / zc t)%Qc.
Proof.
  induction l as [|c l IH]; simpl.
  - unfold Qcdiv. change (zc 0) with (Q2Qc 0). ring.
  - rewrite IH, zc_add. unfold Qcdiv. ring.
Qed.

Lemma zc_neq_0 z : z <> 0%Z -> zc z <> Q2Qc 0.
Proof. intros Hz E. apply Hz, zc_eq_0, E. Qed.

Lemma is_zero_false q : q <> Q2Qc 0 -> is_zero q = false.
Proof.
  intros Hq. destruct (is_zero q) eqn:E; [|reflexivity].
  apply is_zero_true in E. contradiction.
Qed.

(** The grand total of the counts as an integer, before it is held in an
    int64. *)
Definition grand_total (counts : Abundance.counts_t) : Z :=
  fold_right Z.add 0%Z (concat counts).

Definition nonnegative (counts : Abundance.counts_t) : Prop :=
  Forall (Forall (fun c => (0 <= c)%Z)) counts.

(** The counts the program is written for: no count is negative, and the
    grand total is one an int64 holds. *)
Definition in_range (counts : Abundance.counts_t) : Prop :=
  nonnegative counts /\ (grand_total counts < 2 ^ 63)%Z.

Lemma int64_small (z : Z) : (- 2 ^ 63 <= z < 2 ^ 63)%Z -> int64 z = z.
Proof.
  intros Hz. unfold int64. rewrite Z.mod_small by lia. lia.
Qed.

Lemma Zsum_nonneg (l : list Z) :
  Forall (fun c => (0 <= c)%Z) l -> (0 <= fold_right Z.add 0%Z l)%Z.
Proof. induction 1; simpl; lia. Qed.

Lemma concat_nonneg (counts : Abundance.counts_t) :
  nonnegative counts -> Forall (fun c => (0 <= c)%Z) (concat counts).
Proof.
  induction 1 as [|r counts Hr _ IH]; simpl; [constructor|].
  apply Forall_app. split; assumption.
Qed.

(** Within the range the int64 sum is the grand total. *)
Lemma total_abundance_in_range (counts : Abundance.counts_t) :
  in_range counts -> Abundance.total_abundance counts = grand_total counts.
Proof.
  intros [Hnn Hlt]. unfold Abundance.total_abundance, sum_int64.
  fold (grand_total counts). apply int64_small.
  pose proof (Zsum_nonneg _ (concat_nonneg counts Hnn)) as H0.
  fold (grand_total counts) in H0. lia.
Qed.

Lemma total_abundance_sum counts :
  Abundance.total_abundance counts = grand_total counts ->
  Abundance.total_abundance counts <> 0%Z ->
  sum_all (Abundance.subcommunity_abundance counts) = one.
Proof.
  intros Hg Ht. unfold sum_all, Abundance.subcommunity_abundance.
  rewrite <- concat_map.
  rewrite (map_ext _ (fun c => Fin (zc c / zc (Abundance.total_abundance counts)))).
  2:{ intros c. apply fdiv_of_Z. assumption. }
  rewrite <- (map_map (fun c => (zc c / zc (Abundance.total_abundance counts))%Qc) Fin).
  rewrite sum_Fin, qsum_div. unfold one. f_equal.
  fold (grand_total counts). rewrite <- Hg.
  field. apply zc_neq_0. assumption.
Qed.

Lemma sum_all_keepdims m : sum_all (sum_axis1_keepdims m) = sum_all m.
Proof.
  unfold sum_all, sum_axis1_keepdims. rewrite sum_concat.
  rewrite (sum_concat m). f_equal. rewrite map_map. apply map_ext.
  intros r. cbn. destruct (sum r); simpl; try reflexivity. f_equal. ring.
Qed.

Lemma Qcdiv_neq_0 (a b : Qc) : a <> Q2Qc 0 -> b <> Q2Qc 0 -> (a / b)%Qc <> Q2Qc 0.
Proof.
  intros Ha Hb E. apply Ha.
  assert (Q : a = (a / b * b)%Qc) by (field; assumption).
  rewrite Q, E. ring.
Qed.

Section Columns.

Variable t : Z.
Hypothesis t_nonzero : t <> 0%Z.

Let f (c : Z) : float64 := (of_Z c / of_Z t)%float.
Let g (s : Z) : float64 := Fin (zc s / zc t).

Lemma zip_add_rel r acc :
  zip_with fadd (map f r) (map g acc) = map g (zip_with Z.add r acc).
Proof.
  revert acc. induction r as [|c r IH]; intros [|s acc]; simpl; try reflexivity.
  rewrite IH. f_equal. unfold f, g. rewrite fdiv_of_Z by assumption. simpl.
  f_equal. rewrite zc_add. field. apply zc_neq_0; assumption.
Qed.

Lemma sum_axis0_rel k counts :
  fold_right (zip_with fadd) (repeat zero k) (map (map f) counts)
  = map g (fold_right (zip_with Z.add) (repeat 0%Z k) counts).
Proof.
  induction counts as [|r counts IH]; simpl.
  - rewrite map_repeat. f_equal. unfold g, zero. f_equal.
    change (zc 0) with (Q2Qc 0). field. apply zc_neq_0; assumption.
  - rewrite IH. apply zip_add_rel.
Qed.

Definition quot (s d : Z) : float64 := Fin (zc s / zc d).

Lemma zip_div_rel r acc d :
  Forall (fun x => x <> 0%Z) d ->
  zip_with fadd (zip_with fdiv (map f r) (map g d)) (zip_with quot acc d)
  = zip_with quot (zip_with Z.add r acc) d.
Proof.
  intros Hd. revert r acc. induction Hd as [|x d Hx Hd IH]; intros [|c r] [|s acc];
    simpl; try reflexivity.
  rewrite IH. f_equal. unfold f, g, quot. rewrite fdiv_of_Z by assumption. simpl.
  rewrite is_zero_false.
  - simpl. f_equal. rewrite zc_add. field. split; apply zc_neq_0; assumption.
  - apply Qcdiv_neq_0; apply zc_neq_0; assumption.
Qed.

End Columns.

Lemma zip_with_length {A B C} (h : A -> B -> C) l l' :
  length l = length l' -> length (zip_with h l l') = length l.
Proof.
  revert l'. induction l as [|a l IH]; intros [|b l']; simpl; intros E;
    try discriminate; [reflexivity|]. f_equal. apply IH. lia.
Qed.

Lemma column_totals_length k counts :
  rectangular k counts ->
  length (fold_right (zip_with Z.add) (repeat 0%Z k) counts) = k.
Proof.
  induction 1 as [|r counts Hr _ IH]; simpl.
  - apply repeat_length.
  - rewrite zip_with_length; lia.
Qed.

Lemma quot_zero_row d :
  repeat zero (length d) = zip_with quot (repeat 0%Z (length d)) d.
Proof.
  induction d as [|x d IH]; simpl; [reflexivity|].
  rewrite <- IH. f_equal. unfold zero, quot. f_equal.
  change (zc 0) with (Q2Qc 0). unfold Qcdiv. ring.
Qed.

Lemma quot_self d :
  Forall (fun x => x <> 0%Z) d -> zip_with quot d d = repeat one (length d).
Proof.
  induction 1 as [|x d Hx _ IH]; simpl; [reflexivity|].
  rewrite IH. f_equal. unfold quot, one. f_equal. field.
  apply zc_neq_0; assumption.
Qed.

Lemma normalized_column_sums t k counts d :
  t <> 0%Z -> rectangular k counts -> length d = k ->
  Forall (fun x => x <> 0%Z) d ->
  fold_right (zip_with fadd) (repeat zero k)
    (map (fun r => zip_with fdiv (map (fun c => of_Z c / of_Z t)%float r)
                                 (map (fun s => Fin (zc s / zc t)) d)) counts)
  = zip_with quot (fold_right (zip_with Z.add) (repeat 0%Z k) counts) d.
Proof.
  intros Ht Hrect Hk Hd. induction Hrect as [|r counts Hr _ IH]; cbn [map fold_right].
  - subst k. apply quot_zero_row.
  - rewrite IH. apply zip_div_rel; assumption.
Qed.

Lemma ncols_map {A B} (h : A -> B) (m : list (list A)) :
  ncols (map (map h) m) = ncols m.
Proof. destruct m; simpl; [reflexivity|apply length_map]. Qed.

Lemma normalizing_constants_eq (counts : Abundance.counts_t) :
  Abundance.total_abundance counts <> 0%Z ->
  Abundance.subcommunity_normalizing_constants counts
  = map (fun s => Fin (zc s / zc (Abundance.total_abundance counts)))
        (Abundance.column_totals counts).
Proof.
  intros Ht.
  unfold Abundance.subcommunity_normalizing_constants, sum_axis0,
    Abundance.subcommunity_abundance.
  rewrite ncols_map. apply sum_axis0_rel. assumption.
Qed.

(** C7, within the range of int64.  For non-negative counts whose grand
    total is positive and below 2^63, the entries of
    [subcommunity_abundance] sum to 1 over the whole matrix and so do those
    of [metacommunity_abundance]; when moreover every column total is
    positive, every column of [normalized_subcommunity_abundance] sums
    to 1.  The sums are exact, so they are within any tolerance. *)
Theorem abundance_sums_to_one (counts : Abundance.counts_t) :
  nonnegative counts ->
  (0 < grand_total counts < 2 ^ 63)%Z ->
  sum_all (Abundance.subcommunity_abundance counts) = one /\
  sum_all (Abundance.metacommunity_abundance counts) = one /\
  (rectangular (ncols counts) counts ->
   Forall (fun s => (0 < s)%Z) (Abundance.column_totals counts) ->
   sum_axis0 (Abundance.normalized_subcommunity_abundance counts)
   = repeat one (ncols counts)).
Proof.
  intros Hnn Hg.
  assert (Hin : Abundance.total_abundance counts = grand_total counts)
    by (apply total_abundance_in_range; split; [assumption|lia]).
  assert (Ht : Abundance.total_abundance counts <> 0%Z) by lia.
  split; [|split].
  - apply total_abundance_sum; assumption.
  - unfold Abundance.metacommunity_abundance. rewrite sum_all_keepdims.
    apply total_abundance_sum; assumption.
  - intros Hrect Hpos.
    assert (Hnz : Forall (fun x => x <> 0%Z) (Abundance.column_totals counts)).
    { eapply Forall_impl; [|exact Hpos]. simpl. lia. }
    assert (Hlen : length (Abundance.column_totals counts) = ncols counts)
      by (apply column_totals_length, Hrect).
    assert (Hconst := normalizing_constants_eq counts Ht).
    unfold Abundance.normalized_subcommunity_abundance. rewrite Hconst.
    unfold sum_axis0, div_rows, Abundance.subcommunity_abundance.
    rewrite map_map.
    assert (Hn : ncols (map (fun r => zip_with fdiv
                   (map (fun c => of_Z c / of_Z (Abundance.total_abundance counts))%float r)
                   (map (fun s => Fin (zc s / zc (Abundance.total_abundance counts)))
                        (Abundance.column_totals counts))) counts) = ncols counts).
    { destruct counts as [|r counts]; [reflexivity|]. cbn [ncols map].
      rewrite zip_with_length; rewrite !length_map; [reflexivity|].
      rewrite Hlen. reflexivity. }
    rewrite Hn.
    rewrite (normalized_column_sums (Abundance.total_abundance counts)
               (ncols counts)) by assumption.
    fold (Abundance.column_totals counts). rewrite quot_self by assumption.
    rewrite Hlen. reflexivity.
Qed.

Lemma abundance_sums_to_one_witness :
  let counts := [[1; 2]; [3; 4]]%Z in
  sum_all (Abundance.subcommunity_abundance counts) = one /\
  sum_all (Abundance.metacommunity_abundance counts) = one /\
  sum_axis0 (Abundance.normalized_subcommunity_abundance counts) = [one; one].
Proof.
  intros counts.
  destruct (abundance_sums_to_one counts) as (H1 & H2 & H3).
  - repeat constructor; discriminate.
  - vm_compute. split; reflexivity.
  - repeat split; try assumption.
    apply H3.
    + repeat constructor.
    + vm_compute. repeat constructor.
Defined.

(** C7 as stated fails beyond the range of int64: two species with 2^62
    individuals each have a positive grand total, 2^63, which the int64 sum
    of the counts holds as -2^63; every relative abundance is then -1/2 and
    the sums are -1. *)
Lemma abundance_sum_wraps_around :
  let counts := [[2 ^ 62]; [2 ^ 62]]%Z in
  (0 < grand_total counts)%Z /\
  Abundance.total_abundance counts = (- 2 ^ 63)%Z /\
  Abundance.subcommunity_abundance counts
  = [[of_Q (- 1 # 2)]; [of_Q (- 1 # 2)]] /\
  sum_all (Abundance.subcommunity_abundance counts) = of_Q (- 1) /\
  sum_all (Abundance.metacommunity_abundance counts) = of_Q (- 1).
Proof. repeat split; by_evaluation. Qed.

(** ** Degenerate normalization *)

Lemma Forall2_nth {A B : Type} (R : A -> B -> Prop) (l : list A) (l' : list B)
  (j : nat) (da : A) (db : B) :
  Forall2 R l l' -> j < length l -> R (nth j l da) (nth j l' db).
Proof.
  intros E. revert j. induction E as [|a b l l' Hab _ IH]; intros [|j] Hj;
    simpl in *; try lia; [assumption|]. apply IH. lia.
Qed.

Lemma nth_zip_with {A B C : Type} (h : A -> B -> C) l l' j da db dc :
  j < length l -> j < length l' ->
  nth j (zip_with h l l') dc = h (nth j l da) (nth j l' db).
Proof.
  revert l l'. induction j as [|j IH]; intros [|a l] [|b l']; simpl; intros;
    try lia; [reflexivity|]. apply IH; lia.
Qed.

Lemma zc_zero_div t : (zc 0 / zc t)%Qc = Q2Qc 0.
Proof. change (zc 0) with (Q2Qc 0). unfold Qcdiv. ring. Qed.

Lemma Zsum_bounds (l : list Z) (c : Z) :
  Forall (fun c => (0 <= c)%Z) l -> In c l ->
  (0 <= c <= fold_right Z.add 0%Z l)%Z.
Proof.
  induction 1 as [|x l Hx Hl IH]; intros Hin; [contradiction|].
  simpl. pose proof (Zsum_nonneg l Hl). destruct Hin as [E|Hin].
  - subst. lia.
  - specialize (IH Hin). lia.
Qed.

Lemma zip_add_bounds (x acc : list Z) :
  Forall (fun c => (0 <= c)%Z) x -> Forall (fun c => (0 <= c)%Z) acc ->
  length x = length acc ->
  Forall2 (fun c s => (0 <= c <= s)%Z) x (zip_with Z.add x acc) /\
  Forall2 (fun a s => (0 <= a <= s)%Z) acc (zip_with Z.add x acc).
Proof.
  intros Hx. revert acc. induction Hx as [|c x Hc Hx IH];
    intros [|a acc] Hacc Hlen; simpl in *; try discriminate;
    [split; constructor|].
  inversion Hacc as [|? ? Ha Hacc']; subst.
  destruct (IH acc) as [Hxs Haccs]; [assumption|lia|].
  split; constructor; (lia || assumption).
Qed.

(** Every row is, column by column, between 0 and the column totals. *)
Lemma rows_below_totals (k : nat) (counts : Abundance.counts_t) :
  rectangular k counts -> nonnegative counts ->
  Forall (fun s => (0 <= s)%Z)
         (fold_right (zip_with Z.add) (repeat 0%Z k) counts) /\
  forall r, In r counts ->
    Forall2 (fun c s => (0 <= c <= s)%Z) r
            (fold_right (zip_with Z.add) (repeat 0%Z k) counts).
Proof.
  intros Hrect Hnn. induction Hrect as [|x counts Hx Hrect IH].
  - split; [|intros r []]. simpl. clear. induction k; simpl; constructor;
      [lia|assumption].
  - inversion Hnn as [|? ? Hxn Hcn]; subst.
    destruct (IH Hcn) as [Hacc Hrows]. clear IH. cbn [fold_right].
    pose proof (column_totals_length _ _ Hrect) as Hlen.
    destruct (zip_add_bounds x _ Hxn Hacc) as [Hx2 Hacc2]; [lia|].
    split.
    + clear - Hx2. induction Hx2; constructor; [lia|assumption].
    + intros r [E|Hin]; [subst; exact Hx2|].
      specialize (Hrows r Hin). clear - Hrows Hacc2.
      revert r Hrows. induction Hacc2 as [|a s acc tot Has _ IH2];
        intros r Hr; inversion Hr; subst; constructor; [lia|].
      apply IH2. assumption.
Qed.

(** C8, as the code has it.  Nothing in [Abundance] checks its divisors and
    numpy's division does not raise.  For counts within the range: when the
    grand total is 0 every entry of [subcommunity_abundance] is NaN; when
    the grand total is positive every entry of [subcommunity_abundance] is
    finite, and every entry of a zero-total column of
    [normalized_subcommunity_abundance] is NaN. *)
Theorem degenerate_normalization_is_not_finite (counts : Abundance.counts_t) :
  in_range counts ->
  (grand_total counts = 0%Z ->
   Forall (Forall (fun x => x = NaN)) (Abundance.subcommunity_abundance counts)) /\
  ((0 < grand_total counts)%Z ->
   Forall (Forall (fun x => finite x = true))
          (Abundance.subcommunity_abundance counts) /\
   forall j : nat,
     rectangular (ncols counts) counts ->
     j < ncols counts ->
     nth j (Abundance.column_totals counts) 0%Z = 0%Z ->
     Forall (fun x => x = NaN)
            (col j (Abundance.normalized_subcommunity_abundance counts))).
Proof.
  intros Hin. pose proof (total_abundance_in_range counts Hin) as Htot.
  destruct Hin as [Hnn Hlt]. split.
  - intros Ht. unfold Abundance.subcommunity_abundance. rewrite Htot, Ht.
    apply Forall_map, Forall_forall. intros r Hr.
    apply Forall_map, Forall_forall. intros c Hc.
    assert (Hc0 : (0 <= c <= grand_total counts)%Z).
    { apply Zsum_bounds; [apply concat_nonneg, Hnn|].
      apply in_concat. exists r. split; assumption. }
    replace c with 0%Z by lia. reflexivity.
  - intros Ht.
    assert (Hnz : Abundance.total_abundance counts <> 0%Z) by lia.
    split.
    + unfold Abundance.subcommunity_abundance.
      apply Forall_map, Forall_forall. intros r _.
      apply Forall_map, Forall_forall. intros c _.
      rewrite fdiv_of_Z by assumption. reflexivity.
    + intros j Hrect Hj Hzero.
      assert (Hconst := normalizing_constants_eq counts Hnz).
      assert (Hlen : length (Abundance.column_totals counts) = ncols counts)
        by (apply column_totals_length, Hrect).
      destruct (rows_below_totals _ _ Hrect Hnn) as [_ Hrows].
      fold (Abundance.column_totals counts) in Hrows.
      unfold Abundance.normalized_subcommunity_abundance. rewrite Hconst.
      unfold col, div_rows, Abundance.subcommunity_abundance.
      rewrite !map_map. apply Forall_map, Forall_forall. intros r Hr.
      assert (Hrl : length r = ncols counts).
      { unfold rectangular in Hrect. rewrite Forall_forall in Hrect.
        apply Hrect, Hr. }
      assert (Hc0 : nth j r 0%Z = 0%Z).
      { pose proof (Forall2_nth _ _ _ j 0%Z 0%Z (Hrows r Hr)) as Hb.
        cbv beta in Hb. rewrite Hzero in Hb. lia. }
      rewrite (nth_zip_with fdiv _ _ j NaN NaN NaN)
        by (rewrite length_map; lia).
      rewrite (nth_indep _ NaN (of_Z 0 / of_Z (Abundance.total_abundance counts))%float)
        by (rewrite length_map; lia).
      rewrite (map_nth (fun c => (of_Z c / of_Z (Abundance.total_abundance counts))%float)).
      rewrite (nth_indep _ NaN (Fin (zc 0 / zc (Abundance.total_abundance counts))))
        by (rewrite length_map; lia).
      rewrite (map_nth (fun s => Fin (zc s / zc (Abundance.total_abundance counts)))).
      rewrite Hzero, Hc0, fdiv_of_Z by assumption.
      rewrite zc_zero_div. reflexivity.
Qed.

Lemma degenerate_normalization_is_not_finite_witness :
  Forall (Forall (fun x => x = NaN))
         (Abundance.subcommunity_abundance [[0]; [0]]%Z) /\
  Forall (Forall (fun x => finite x = true))
         (Abundance.subcommunity_abundance [[1; 0]; [2; 0]]%Z) /\
  Forall (fun x => x = NaN)
         (col 1 (Abundance.normalized_subcommunity_abundance [[1; 0]; [2; 0]]%Z)).
Proof.
  assert (Hz : in_range [[0]; [0]]%Z)
    by (split; [repeat constructor; discriminate|reflexivity]).
  assert (Hp : in_range [[1; 0]; [2; 0]]%Z)
    by (split; [repeat constructor; discriminate|reflexivity]).
  split; [|split].
  - apply (degenerate_normalization_is_not_finite [[0]; [0]]%Z Hz). reflexivity.
  - apply (degenerate_normalization_is_not_finite [[1; 0]; [2; 0]]%Z Hp).
    reflexivity.
  - apply (degenerate_normalization_is_not_finite [[1; 0]; [2; 0]]%Z Hp).
    + reflexivity.
    + repeat constructor.
    + simpl. lia.
    + reflexivity.
Defined.

(** C8 as stated fails: with a zero grand total [subcommunity_abundance]
    returns an array of NaN, and with a positive grand total and an empty
    second subcommunity [normalized_subcommunity_abundance] returns an array
    whose second column is NaN; neither call raises. *)
Lemma degenerate_normalization_returns_nan :
  Abundance.subcommunity_abundance [[0]; [0]]%Z = [[NaN]; [NaN]] /\
  Abundance.subcommunity_abundance [[1; 0]; [2; 0]]%Z
  = [[of_Q (1 # 3); zero]; [of_Q (2 # 3); zero]] /\
  Abundance.normalized_subcommunity_abundance [[1; 0]; [2; 0]]%Z
  = [[of_Q (1 # 3); NaN]; [of_Q (2 # 3); NaN]].
Proof. repeat split; by_evaluation. Qed.

(** ** The shared buffer *)


(** The assignment is the only obstacle.  On a shared array whose [flags]
    keep the attribute [writable], which the constructor leaves at False,
    requesting the quantity the buffer already stores leaves the object,
    and with it the buffer, as it is and returns the content of the
    buffer. *)
Lemma rescale_idempotent_when_flags_accept (self : SharedAbundance.t) :
  SharedArrayView.flags (SharedAbundance.__shared_data self)
  = SharedArrayView.namespace (Some false) ->
  (SharedAbundance.__stores self = SharedAbundance.subcommunity_abundances ->
   SharedAbundance.subcommunity_abundance self
   = (Ok (SharedArrayView.data (SharedAbundance.__shared_data self)), self)) /\
  (SharedAbundance.__stores self
   = SharedAbundance.normalized_subcommunity_abundances ->
   SharedAbundance.normalized_subcommunity_abundance self
   = (Ok (SharedArrayView.data (SharedAbundance.__shared_data self)), self)).
Proof.
  destruct self as [[data flags] now total constants cached].
  cbn [SharedAbundance.__shared_data SharedAbundance.__stores
       SharedArrayView.flags SharedArrayView.data].
  intros Ef. subst flags. split; intros Es; subst now; reflexivity.
Qed.

(** C3 fails on the code.  With two subcommunities, once the buffer holds
    the normalized abundances the first request of [metacommunity_abundance]
    multiplies the (n, 1) array of row sums in place by the two normalizing
    constants, which numpy refuses; the unscaled row sums stay cached, so
    the next request returns them.  [Abundance] answers 1/2 for both
    species.  That is on a shared array whose [flags] take the attribute
    [writable]; on a numpy array the constructor raises [AttributeError]
    and there is no object to access. *)
Theorem shared_metacommunity_abundance_diverges :
  let counts := [[1; 0]; [0; 1]]%Z in
  let accesses :=
    [Normalized_subcommunity_abundance; Metacommunity_abundance;
     Metacommunity_abundance] in
  shared_session accesses
    (view_of_counts (SharedArrayView.namespace None) counts)
  = Ok [Ok (Array2 [[one; zero]; [zero; one]]);
        Raise ValueError;
        Ok (Array2 [[one]; [one]])] /\
  shared_session accesses (view_of_counts SharedArrayView.flagsobj counts)
  = Raise AttributeError /\
  plain_access Normalized_subcommunity_abundance counts
  = Array2 [[one; zero]; [zero; one]] /\
  plain_access Metacommunity_abundance counts
  = Array2 [[of_Q (1 # 2)]; [of_Q (1 # 2)]].
Proof. repeat split; by_evaluation. Qed.

(** ** Counts, relative abundances and normalized abundances *)

Lemma sum_of_Z (l : list Z) : sum (map of_Z l) = of_Z (fold_right Z.add 0%Z l).
Proof.
  induction l as [|c l IH]; [reflexivity|].
  cbn [map fold_right]. rewrite sum_cons, IH. unfold of_Z. simpl.
  f_equal. symmetry. apply zc_add.
Qed.

Section Rescaling.

Variable counts : Abundance.counts_t.

Let T : Z := Abundance.total_abundance counts.
Let totals : list Z := Abundance.column_totals counts.

Hypothesis total_nonzero : T <> 0%Z.
Hypothesis counts_rectangular : rectangular (ncols counts) counts.
Hypothesis columns_nonzero : Forall (fun s => s <> 0%Z) totals.

Let f (c : Z) : float64 := (of_Z c / of_Z T)%float.
Let g (s : Z) : float64 := Fin (zc s / zc T).

Lemma T_nonzero : T <> 0%Z.
Proof. exact total_nonzero. Qed.

Lemma totals_length : length totals = ncols counts.
Proof. apply column_totals_length, counts_rectangular. Qed.

Lemma g_nonzero (s : Z) : s <> 0%Z -> is_zero (zc s / zc T) = false.
Proof.
  intros Hs. apply is_zero_false, Qcdiv_neq_0; apply zc_neq_0;
    [assumption|apply T_nonzero].
Qed.

Lemma rescale_back_entry (c s : Z) :
  s <> 0%Z -> (f c / g s * g s = f c)%float.
Proof.
  intros Hs. unfold f, g. rewrite fdiv_of_Z by apply T_nonzero.
  simpl. rewrite (g_nonzero s Hs). simpl. f_equal. field.
  split; apply zc_neq_0; [apply T_nonzero|assumption].
Qed.

Lemma rescale_back_row (r d : list Z) :
  length r = length d -> Forall (fun s => s <> 0%Z) d ->
  zip_with fmul (zip_with fdiv (map f r) (map g d)) (map g d) = map f r.
Proof.
  intros Hl Hd. revert r Hl.
  induction Hd as [|s d Hs _ IH]; intros [|c r] Hl; simpl in *;
    try discriminate; [reflexivity|].
  rewrite IH by lia. f_equal. apply rescale_back_entry, Hs.
Qed.

Lemma constants_eq :
  Abundance.subcommunity_normalizing_constants counts = map g totals.
Proof. apply normalizing_constants_eq, T_nonzero. Qed.


Lemma rescaled_normalized :
  map (fun r => zip_with fmul r
                  (Abundance.subcommunity_normalizing_constants counts))
      (Abundance.normalized_subcommunity_abundance counts)
  = Abundance.subcommunity_abundance counts.
Proof.
  unfold Abundance.normalized_subcommunity_abundance, div_rows,
    Abundance.subcommunity_abundance.
  rewrite constants_eq, !map_map. apply map_ext_in. intros r Hr.
  apply rescale_back_row; [|exact columns_nonzero].
  pose proof counts_rectangular as Hrect.
  unfold rectangular in Hrect. rewrite Forall_forall in Hrect.
  rewrite (Hrect r Hr). symmetry. apply totals_length.
Qed.

Lemma row_sum_scaled (r : list Z) :
  (sum (map of_Z r) / of_Z T)%float = sum (map f r).
Proof.
  rewrite sum_of_Z, fdiv_of_Z by apply T_nonzero.
  unfold f. rewrite (map_ext _ (fun c => Fin (zc c / zc T)))
    by (intros c; apply fdiv_of_Z, T_nonzero).
  rewrite <- (map_map (fun c => (zc c / zc T)%Qc) Fin).
  rewrite sum_Fin, qsum_div. reflexivity.
Qed.

End Rescaling.

(** ** The chunked-file backend against the in-memory backend *)

Lemma bind_Ok {A B : Type} (a : A) (k : A -> result B) :
  (x <- Ok a ;; k x) = k a.
Proof. reflexivity. Qed.

Lemma matmul_app (a a' b : matrix) :
  matmul (a ++ a') b
  = (r <- matmul a b ;; r' <- matmul a' b ;; Ok (r ++ r')).
Proof.
  unfold matmul. rewrite forallb_app.
  destruct (forallb _ a); simpl; [|reflexivity].
  destruct (forallb _ a'); simpl; [|reflexivity].
  unfold matmul_rows. rewrite map_app. reflexivity.
Qed.

Lemma matmul_length (a b r : matrix) : matmul a b = Ok r -> length r = length a.
Proof.
  unfold matmul. destruct (forallb _ a); intros E; inversion E.
  unfold matmul_rows. apply length_map.
Qed.

Lemma setitem_rows_exact (P Q block : matrix) (stop : nat) :
  length block = Nat.min (stop - length P) (length Q) ->
  SimilarityFromFile.setitem_rows (P ++ Q) (length P) stop block
  = Ok (P ++ block ++ skipn (length block) Q).
Proof.
  intros Hb. unfold SimilarityFromFile.setitem_rows.
  rewrite length_app.
  replace (Nat.min stop (length P + length Q) - length P) with (length block)
    by lia.
  rewrite Nat.eqb_refl.
  rewrite firstn_app, firstn_all, Nat.sub_diag, firstn_O, app_nil_r.
  rewrite skipn_app, skipn_all2 by lia.
  replace (length P + length block - length P) with (length block) by lia.
  reflexivity.
Qed.

(** The loop invariant: [P] holds the rows written so far, [rest] the rows
    of the file still to be read and [Q] the part of the output not yet
    written.  The offset is the number of rows written as long as rows
    remain. *)
Lemma store_chunks_spec (chunk_size : nat) (ra : matrix) :
  0 < chunk_size ->
  forall (fuel : nat) (rest : matrix) (i : nat) (P Q : matrix),
    length rest <= fuel ->
    (rest <> [] -> length P = i) ->
    length Q = length rest ->
    SimilarityFromFile.store_chunks chunk_size ra
      (SimilarityFromFile.chunks_from fuel chunk_size rest) i (P ++ Q)
    = (r <- matmul rest ra ;; Ok (P ++ r)).
Proof.
  intros Hcs. induction fuel as [|fuel IH]; intros rest i P Q Hfuel Hi HQ.
  - destruct rest; simpl in Hfuel; [|lia].
    destruct Q; [|discriminate]. reflexivity.
  - destruct rest as [|row rest'] eqn:Erest.
    + destruct Q; [|discriminate]. reflexivity.
    + rewrite <- Erest in *.
      assert (Hne : rest <> []) by (subst rest; discriminate).
      assert (Hlen : 0 < length rest) by (subst rest; simpl; lia).
      specialize (Hi Hne). subst i.
      replace (SimilarityFromFile.chunks_from (S fuel) chunk_size rest)
        with (firstn chunk_size rest
                :: SimilarityFromFile.chunks_from fuel chunk_size
                     (skipn chunk_size rest))
        by (subst rest; reflexivity).
      cbn [SimilarityFromFile.store_chunks].
      replace (matmul rest ra)
        with (matmul (firstn chunk_size rest ++ skipn chunk_size rest) ra)
        by (rewrite firstn_skipn; reflexivity).
      rewrite matmul_app.
      destruct (matmul (firstn chunk_size rest) ra) as [block|e] eqn:Eb;
        [|reflexivity].
      rewrite !bind_Ok.
      assert (Hbl : length block = Nat.min chunk_size (length rest)).
      { rewrite (matmul_length _ _ _ Eb). apply length_firstn. }
      rewrite setitem_rows_exact by lia.
      rewrite bind_Ok, app_assoc.
      rewrite IH.
      * destruct (matmul (skipn chunk_size rest) ra); simpl;
          [rewrite app_assoc|]; reflexivity.
      * rewrite length_skipn. lia.
      * intros Hrest'. rewrite length_app.
        assert (length (skipn chunk_size rest) <> 0).
        { destruct (skipn chunk_size rest); [contradiction|simpl; lia]. }
        rewrite length_skipn in *. lia.
      * rewrite !length_skipn. lia.
Qed.

(** The whole loop, on an output array with as many rows as the file. *)
Lemma store_all_chunks (chunk_size : nat) (ra rows weighted : matrix) :
  0 < chunk_size ->
  length weighted = length rows ->
  SimilarityFromFile.store_chunks chunk_size ra
    (SimilarityFromFile.chunks chunk_size rows) 0 weighted
  = matmul rows ra.
Proof.
  intros Hcs Hlen. destruct rows as [|row rows'] eqn:E.
  - destruct weighted; [|discriminate].
    cbn [SimilarityFromFile.chunks SimilarityFromFile.store_chunks].
    unfold SimilarityFromFile.setitem_rows. cbn [length].
    rewrite Nat.min_0_r. reflexivity.
  - rewrite <- E in *.
    replace (SimilarityFromFile.chunks chunk_size rows)
      with (SimilarityFromFile.chunks_from (length rows) chunk_size rows)
      by (subst rows; reflexivity).
    change weighted with ([] ++ weighted).
    rewrite store_chunks_spec; try assumption.
    + destruct (matmul rows ra); reflexivity.
    + lia.
    + reflexivity.
Qed.

Lemma empty_length (sh : nat * nat) (memory : nat -> nat -> float64) :
  length (SimilarityFromFile.empty sh memory) = fst sh.
Proof. unfold SimilarityFromFile.empty. rewrite length_map. apply length_seq. Qed.

(** C4.  Read from a file with as many rows as the abundance matrix, in
    chunks of any positive size, the weighted similarities are those of the
    in-memory backend holding the same matrix: the same array when the
    product is defined, the same error otherwise.  The result does not
    depend on what the freshly allocated output array held. *)
Theorem file_backend_agrees_with_array (memory : nat -> nat -> float64)
  (header : list string) (M : matrix) (chunk_size : nat)
  (relative_abundances : matrix) :
  0 < chunk_size ->
  length M = length relative_abundances ->
  SimilarityFromFile.weighted_similarities memory
    (SimilarityFromFile.mk (SimilarityFromFile.mk_csv header M) chunk_size)
    relative_abundances
  = SimilarityFromArray.weighted_similarities (SimilarityFromArray.mk M)
      relative_abundances.
Proof.
  intros Hcs Hlen.
  unfold SimilarityFromFile.weighted_similarities,
    SimilarityFromArray.weighted_similarities, SimilarityFromFile.read_csv.
  cbn [SimilarityFromFile.similarity SimilarityFromFile.chunk_size
       SimilarityFromFile.rows SimilarityFromArray.similarity].
  destruct (Nat.eqb_spec chunk_size 0) as [E|_]; [lia|].
  rewrite bind_Ok. apply store_all_chunks; [assumption|].
  rewrite empty_length. simpl. lia.
Qed.

Lemma file_backend_agrees_with_array_witness :
  let M := [[one; zero; zero]; [zero; one; zero]; [zero; zero; one]] in
  let ra := [[of_Q (1 # 2)]; [of_Q (1 # 3)]; [of_Q (1 # 6)]] in
  SimilarityFromFile.weighted_similarities (fun _ _ => NaN)
    (SimilarityFromFile.mk (SimilarityFromFile.mk_csv [] M) 2) ra
  = SimilarityFromArray.weighted_similarities (SimilarityFromArray.mk M) ra.
Proof.
  intros M ra.
  apply (file_backend_agrees_with_array (fun _ _ => NaN) [] M 2 ra).
  - lia.
  - reflexivity.
Defined.

(** ** The function backend against the full similarity matrix *)

Section FunctionBackend.

Variable F : Type.
Variable similarity : F -> F -> float64.
Variable X : list F.
Variable relative_abundances : matrix.
Variable chunk_size : nat.
Hypothesis chunk_size_positive : 0 < chunk_size.

Let S : matrix := SimilarityFromFunction.similarity_matrix similarity X.

Lemma weighted_similarity_chunk_rows (i : nat) :
  SimilarityFromFunction.weighted_similarity_chunk similarity X
    relative_abundances chunk_size i
  = matmul (firstn chunk_size (skipn i S)) relative_abundances.
Proof.
  unfold SimilarityFromFunction.weighted_similarity_chunk, S,
    SimilarityFromFunction.similarity_matrix.
  rewrite skipn_map, firstn_map. reflexivity.
Qed.

(** The tasks submitted from offset [start] on compute, in order, the
    blocks of the product for the rows from [start] on. *)
Lemma chunks_from_offset (fuel start : nat) :
  length X - start <= fuel ->
  (blocks <- mapM (SimilarityFromFunction.weighted_similarity_chunk
                     similarity X relative_abundances chunk_size)
                  (SimilarityFromFunction.range_from fuel start (length X)
                     chunk_size) ;;
   Ok (concat blocks))
  = matmul (skipn start S) relative_abundances.
Proof.
  revert start. induction fuel as [|fuel IH]; intros start Hfuel.
  - simpl. rewrite skipn_all2; [reflexivity|].
    unfold S, SimilarityFromFunction.similarity_matrix. rewrite length_map. lia.
  - cbn [SimilarityFromFunction.range_from].
    destruct (Nat.ltb_spec start (length X)) as [Hlt|Hge].
    + cbn [mapM]. rewrite weighted_similarity_chunk_rows.
      rewrite <- (firstn_skipn chunk_size (skipn start S)) at 2.
      rewrite matmul_app.
      destruct (matmul (firstn chunk_size (skipn start S)) relative_abundances)
        as [block|e]; [|reflexivity].
      rewrite !bind_Ok. rewrite skipn_skipn.
      rewrite <- (IH (chunk_size + start)) by lia.
      replace (start + chunk_size) with (chunk_size + start) by lia.
      destruct (mapM _ _); reflexivity.
    + simpl. rewrite skipn_all2; [reflexivity|].
      unfold S, SimilarityFromFunction.similarity_matrix. rewrite length_map. lia.
Qed.

Lemma mapM_nonempty {A B : Type} (f : A -> result B) (l : list A) (bs : list B) :
  mapM f l = Ok bs -> l <> [] -> bs <> [].
Proof.
  destruct l as [|a l]; [contradiction|]. simpl.
  destruct (f a); [|discriminate]. simpl.
  destruct (mapM f l); simpl; intros E; inversion E. discriminate.
Qed.

Lemma weighted_similarities_nonempty :
  X <> [] ->
  SimilarityFromFunction.weighted_similarities
    (SimilarityFromFunction.mk similarity X chunk_size) relative_abundances
  = matmul S relative_abundances.
Proof.
  intros HX.
  unfold SimilarityFromFunction.weighted_similarities,
    SimilarityFromFunction.range.
  cbn [SimilarityFromFunction.X SimilarityFromFunction.chunk_size
       SimilarityFromFunction.similarity].
  destruct (Nat.eqb_spec chunk_size 0) as [E|_]; [lia|].
  rewrite bind_Ok.
  assert (Hsum := chunks_from_offset (length X) 0).
  cbn [skipn] in Hsum. rewrite <- Hsum by lia.
  destruct (mapM _ _) as [blocks|e] eqn:Eb; [|reflexivity].
  rewrite !bind_Ok.
  assert (Hb : blocks <> []).
  { apply (mapM_nonempty _ _ _ Eb). destruct X; [contradiction|].
    simpl. discriminate. }
  destruct blocks; [contradiction|reflexivity].
Qed.

End FunctionBackend.

(** C5, as the code has it.  For a feature matrix with at least one row
    and a positive chunk size, the blocks computed per chunk, concatenated
    in submission order, are the product of the full similarity matrix
    S[i,j] = f(X[i], X[j]) with the abundance matrix: the same array when
    the product is defined, the same error otherwise. *)
Theorem function_backend_computes_product (F : Type)
  (similarity : F -> F -> float64) (X : list F) (relative_abundances : matrix)
  (chunk_size : nat) :
  0 < chunk_size ->
  X <> [] ->
  SimilarityFromFunction.weighted_similarities
    (SimilarityFromFunction.mk similarity X chunk_size) relative_abundances
  = matmul (SimilarityFromFunction.similarity_matrix similarity X)
           relative_abundances.
Proof.
  intros Hcs HX. apply weighted_similarities_nonempty; assumption.
Qed.

(** A similarity between species given by one number each: 1 for equal
    features, 1/2 otherwise. *)
Definition same_or_half (x y : Z) : float64 :=
  if Z.eqb x y then one else of_Q (1 # 2).

Lemma function_backend_computes_product_witness :
  let X := [1; 2; 2]%Z in
  let ra := [[of_Q (1 # 2)]; [of_Q (1 # 4)]; [of_Q (1 # 4)]] in
  SimilarityFromFunction.weighted_similarities
    (SimilarityFromFunction.mk same_or_half X 2) ra
  = matmul (SimilarityFromFunction.similarity_matrix same_or_half X) ra.
Proof.
  intros X ra.
  apply (function_backend_computes_product Z same_or_half X ra 2).
  - lia.
  - discriminate.
Defined.

(** C5 as stated fails for a feature matrix without rows: no task is
    submitted and [concatenate] raises on the empty list of blocks, while
    the product of the empty similarity matrix is the empty array. *)
Lemma function_backend_raises_without_species :
  SimilarityFromFunction.weighted_similarities
    (SimilarityFromFunction.mk same_or_half [] 2) []
  = Raise ValueError /\
  matmul (SimilarityFromFunction.similarity_matrix same_or_half []) [] = Ok [].
Proof. split; reflexivity. Qed.

(** ** The diversity measures *)

Inductive measure : Type :=
| Alpha
| Rho
| Beta
| Gamma
| Normalized_alpha
| Normalized_rho
| Normalized_beta.

Definition is_beta (m : measure) : bool :=
  match m with
  | Beta | Normalized_beta => true
  | _ => false
  end.

Lemma mapM_Forall2 {A B : Type} (f : A -> result B) (l : list A) (bs : list B) :
  mapM f l = Ok bs -> Forall2 (fun a b => f a = Ok b) l bs.
Proof.
  revert bs. induction l as [|a l IH]; simpl; intros bs E.
  - inversion E. constructor.
  - destruct (f a) as [b|] eqn:Ea; [|discriminate]. simpl in E.
    destruct (mapM f l) as [bs'|]; [|discriminate]. inversion E.
    constructor; [assumption|]. apply IH. reflexivity.
Qed.

Lemma broadcast_length {A : Type} (n : nat) (l l' : list A) :
  Metacommunity.broadcast n l = Ok l' -> length l' = n.
Proof.
  unfold Metacommunity.broadcast. destruct (Nat.eqb_spec (length l) n).
  - intros E. inversion E. subst. reflexivity.
  - destruct l as [|x [|y l]]; intros E; inversion E. apply repeat_length.
Qed.

(** The axis of length 1 that numpy repeats: position [i] of an axis of
    [n] entries is read at 0 when [n] is 1. *)
Definition broadcast_index (n i : nat) : nat := if Nat.eqb n 1 then 0 else i.

(** The entry of the numerator that faces entry (i, j) of the denominator:
    a scalar everywhere, and an axis of length 1 is repeated. *)
Definition numerator_entry (numerator : Metacommunity.operand) (i j : nat)
  : float64 :=
  match numerator with
  | Metacommunity.Scalar x => x
  | Metacommunity.Array m =>
      let r := nth (broadcast_index (length m) i) m [] in
      nth (broadcast_index (length r) j) r NaN
  end.

(** The shapes numpy accepts for the division: the numerator is a scalar,
    or each of its axes has the length of that of the denominator or
    length 1. *)
Definition compatible (numerator : Metacommunity.operand) (denominator : matrix)
  : Prop :=
  match numerator with
  | Metacommunity.Scalar _ => True
  | Metacommunity.Array m =>
      (length m = length denominator \/ length m = 1) /\
      forall i, i < length denominator ->
        let r := nth (broadcast_index (length m) i) m [] in
        length r = length (nth i denominator []) \/ length r = 1
  end.

(** [s] is the ratio of [n] and [d]: 0 where [d] is 0, [n / d] elsewhere. *)
Definition ratio_of (n d s : float64) : Prop :=
  (nonzero d = false -> s = zero) /\
  (nonzero d = true -> s = (n / d)%float).

Lemma broadcast_ok {A : Type} (n : nat) (l : list A) :
  (exists l', Metacommunity.broadcast n l = Ok l')
  <-> (length l = n \/ length l = 1).
Proof.
  unfold Metacommunity.broadcast. destruct (Nat.eqb_spec (length l) n) as [E|E].
  - split; [left; assumption|eexists; reflexivity].
  - destruct l as [|x [|y l]]; simpl in *.
    + split; [intros [l' H]; discriminate|intros [H|H]; [lia|discriminate]].
    + split; [right; reflexivity|eexists; reflexivity].
    + split; [intros [l' H]; discriminate|intros [H|H]; [lia|discriminate]].
Qed.

Lemma broadcast_raises {A : Type} (n : nat) (l : list A) (e : exn) :
  Metacommunity.broadcast n l = Raise e -> e = ValueError.
Proof.
  unfold Metacommunity.broadcast. destruct (Nat.eqb (length l) n);
    [discriminate|]. destruct l as [|x [|y l]]; intros E; inversion E;
    reflexivity.
Qed.

Lemma broadcast_nth {A : Type} (n : nat) (l l' : list A) (i : nat) (d : A) :
  Metacommunity.broadcast n l = Ok l' -> i < n ->
  nth i l' d = nth (broadcast_index (length l) i) l d.
Proof.
  unfold Metacommunity.broadcast, broadcast_index.
  destruct (Nat.eqb_spec (length l) n) as [E|E].
  - intros H Hi. inversion H. subst l'.
    destruct (Nat.eqb_spec (length l) 1) as [E1|_]; [|reflexivity].
    replace i with 0 by lia. reflexivity.
  - destruct l as [|x [|y l]]; intros H Hi; inversion H. subst l'.
    simpl. apply nth_repeat_lt. assumption.
Qed.

Lemma mapM_raises {A B : Type} (f : A -> result B) (l : list A) (e : exn) :
  mapM f l = Raise e -> exists a, In a l /\ f a = Raise e.
Proof.
  induction l as [|a l IH]; simpl; [discriminate|].
  destruct (f a) as [b|e'] eqn:Ea; simpl.
  - destruct (mapM f l) as [bs|e'] eqn:El; simpl; [discriminate|].
    intros E. inversion E. subst e'. destruct (IH eq_refl) as (a' & Hin & Ha').
    exists a'. split; [right; assumption|assumption].
  - intros E. inversion E. subst e'. exists a. split; [left; reflexivity|assumption].
Qed.

Lemma mapM_returns {A B : Type} (f : A -> result B) (l : list A) :
  (forall a, In a l -> exists b, f a = Ok b) -> exists bs, mapM f l = Ok bs.
Proof.
  induction l as [|a l IH]; simpl; intros H; [eexists; reflexivity|].
  destruct (H a (or_introl eq_refl)) as [b Hb]. rewrite Hb. simpl.
  destruct IH as [bs Hbs]; [intros a' Ha'; apply H; right; assumption|].
  rewrite Hbs. simpl. eexists; reflexivity.
Qed.

Lemma divide_entry_ratio (n d : float64) :
  ratio_of n d (Metacommunity.divide_entry n d).
Proof.
  unfold ratio_of, Metacommunity.divide_entry.
  split; intros E; rewrite E; reflexivity.
Qed.

(** What [divide] returns: an array of the shape of the denominator whose
    entries are the ratios. *)
Definition ratios (numerator : Metacommunity.operand)
  (denominator similarities : matrix) : Prop :=
  length similarities = length denominator /\
  forall i, i < length denominator ->
    length (nth i similarities []) = length (nth i denominator []) /\
    forall j, j < length (nth i denominator []) ->
      ratio_of (numerator_entry numerator i j)
               (nth j (nth i denominator []) NaN)
               (nth j (nth i similarities []) NaN).

Lemma divide_ratios (numerator : Metacommunity.operand)
  (denominator similarities : matrix) :
  Metacommunity.divide numerator denominator = Ok similarities ->
  ratios numerator denominator similarities.
Proof.
  destruct numerator as [x|m]; cbn [Metacommunity.divide].
  - intros E. inversion E. subst similarities. clear E. split.
    + apply length_map.
    + intros i Hi.
      assert (Er : nth i (map (map (Metacommunity.divide_entry x)) denominator) []
                   = map (Metacommunity.divide_entry x) (nth i denominator []))
        by exact (map_nth (map (Metacommunity.divide_entry x)) denominator [] i).
      rewrite Er. split; [apply length_map|]. intros j Hj.
      rewrite (nth_indep (map _ _) NaN (Metacommunity.divide_entry x NaN))
        by (rewrite length_map; assumption).
      rewrite (map_nth (Metacommunity.divide_entry x)).
      apply divide_entry_ratio.
  - destruct (Metacommunity.broadcast (length denominator) m) as [rows|] eqn:Eb;
      [|discriminate].
    rewrite bind_Ok. intros E.
    pose proof (broadcast_length _ _ _ Eb) as Hrows.
    apply mapM_Forall2 in E.
    pose proof (Forall2_length E) as Hlen. rewrite length_combine in Hlen.
    split; [lia|]. intros i Hi.
    apply (Forall2_nth _ _ _ i ([], []) []) in E;
      [|rewrite length_combine; lia].
    rewrite combine_nth in E by assumption. cbn [fst snd] in E.
    destruct (Metacommunity.broadcast (length (nth i denominator [])) (nth i rows []))
      as [n|] eqn:En; [|discriminate].
    rewrite bind_Ok in E. inversion E as [Es]. clear E.
    pose proof (broadcast_length _ _ _ En) as Hn.
    split; [rewrite zip_with_length; assumption|].
    intros j Hj.
    rewrite (nth_zip_with Metacommunity.divide_entry _ _ j NaN NaN NaN) by lia.
    replace (numerator_entry (Metacommunity.Array m) i j) with (nth j n NaN).
    + apply divide_entry_ratio.
    + cbn [numerator_entry].
      rewrite <- (broadcast_nth _ _ _ _ [] Eb Hi).
      apply (broadcast_nth _ _ _ _ NaN En Hj).
Qed.

Lemma divide_returns (numerator : Metacommunity.operand) (denominator : matrix) :
  compatible numerator denominator <->
  exists similarities, Metacommunity.divide numerator denominator = Ok similarities.
Proof.
  destruct numerator as [x|m]; cbn [Metacommunity.divide compatible].
  - split; [intros _; eexists; reflexivity|trivial].
  - split.
    + intros [Hm Hr].
      destruct (proj2 (broadcast_ok (length denominator) m) Hm) as [rows Eb].
      rewrite Eb, bind_Ok.
      pose proof (broadcast_length _ _ _ Eb) as Hrows.
      apply mapM_returns. intros [r d] Hin.
      apply (In_nth _ _ ([], [])) in Hin. destruct Hin as (i & Hi & Ei).
      rewrite length_combine in Hi.
      rewrite combine_nth in Ei by assumption. inversion Ei. clear Ei.
      cbn [fst snd].
      assert (Hi' : i < length denominator) by lia.
      specialize (Hr i Hi'). cbv zeta in Hr.
      rewrite <- (broadcast_nth _ _ _ _ [] Eb Hi') in Hr.
      destruct (proj2 (broadcast_ok (length (nth i denominator []))
                         (nth i rows [])) Hr) as [n En].
      rewrite En. eexists; reflexivity.
    + intros [sims E].
      destruct (Metacommunity.broadcast (length denominator) m) as [rows|] eqn:Eb;
        [|discriminate].
      rewrite bind_Ok in E.
      pose proof (broadcast_length _ _ _ Eb) as Hrows.
      split; [apply broadcast_ok; eexists; exact Eb|].
      intros i Hi. cbv zeta.
      rewrite <- (broadcast_nth _ _ _ _ [] Eb Hi).
      apply mapM_Forall2 in E.
      apply (Forall2_nth _ _ _ i ([], []) []) in E;
        [|rewrite length_combine; lia].
      rewrite combine_nth in E by assumption. cbn [fst snd] in E.
      apply broadcast_ok.
      destruct (Metacommunity.broadcast _ (nth i rows [])) as [n|];
        [eexists; reflexivity|discriminate].
Qed.

Lemma divide_raises (numerator : Metacommunity.operand) (denominator : matrix)
  (e : exn) :
  Metacommunity.divide numerator denominator = Raise e -> e = ValueError.
Proof.
  destruct numerator as [x|m]; cbn [Metacommunity.divide]; [discriminate|].
  destruct (Metacommunity.broadcast (length denominator) m) as [rows|e'] eqn:Eb.
  - rewrite bind_Ok. intros E. apply mapM_raises in E.
    destruct E as ([r d] & _ & E). cbn [fst snd] in E.
    destruct (Metacommunity.broadcast (length d) r) as [n|e'] eqn:En;
      [discriminate|].
    inversion E. subst e'. apply (broadcast_raises _ _ _ En).
  - intros E. inversion E. subst e'. apply (broadcast_raises _ _ _ Eb).
Qed.

Lemma ratio_of_unique (n d s s' : float64) :
  ratio_of n d s -> ratio_of n d s' -> s = s'.
Proof.
  intros [Hz Hq] [Hz' Hq']. destruct (nonzero d) eqn:E.
  - rewrite Hq, Hq' by reflexivity. reflexivity.
  - rewrite Hz, Hz' by reflexivity. reflexivity.
Qed.

Lemma ratios_unique (numerator : Metacommunity.operand)
  (denominator s s' : matrix) :
  ratios numerator denominator s -> ratios numerator denominator s' -> s = s'.
Proof.
  intros [Hl Hs] [Hl' Hs'].
  apply (nth_ext _ _ [] []); [lia|]. intros i Hi.
  assert (Hi' : i < length denominator) by lia.
  destruct (Hs i Hi') as [Hr He]. destruct (Hs' i Hi') as [Hr' He'].
  apply (nth_ext _ _ NaN NaN); [lia|]. intros j Hj.
  assert (Hj' : j < length (nth i denominator [])) by lia.
  apply (ratio_of_unique _ _ _ _ (He j Hj') (He' j Hj')).
Qed.

Lemma divide_characterization (numerator : Metacommunity.operand)
  (denominator similarities : matrix) :
  Metacommunity.divide numerator denominator = Ok similarities <->
  compatible numerator denominator /\ ratios numerator denominator similarities.
Proof.
  split.
  - intros E. split; [|apply divide_ratios, E].
    apply divide_returns. exists similarities. exact E.
  - intros [Hc Hr]. apply divide_returns in Hc. destruct Hc as [s' E].
    rewrite E. f_equal.
    apply (ratios_unique numerator denominator); [apply divide_ratios, E|exact Hr].
Qed.

Lemma mapM_of_nth {B : Type} (f : nat -> result B) (d : B) (n : nat) :
  forall (start : nat) (bs : list B),
    length bs = n ->
    (forall j, j < n -> f (start + j) = Ok (nth j bs d)) ->
    mapM f (seq start n) = Ok bs.
Proof.
  induction n as [|n IH]; intros start bs Hl Hf.
  - destruct bs; [reflexivity|discriminate].
  - destruct bs as [|b bs]; [discriminate|]. cbn [seq mapM].
    pose proof (Hf 0 ltac:(lia)) as H0. rewrite Nat.add_0_r in H0.
    rewrite H0, bind_Ok. rewrite (IH (S start) bs).
    + reflexivity.
    + simpl in Hl. lia.
    + intros j Hj. specialize (Hf (S j) ltac:(lia)).
      rewrite Nat.add_succ_r in Hf. exact Hf.
Qed.

Section MeasureFacts.

Context {S A : Type} `{ISimilarity S} `{IAbundance A}.

Variable power_mean : float64 -> vector -> vector -> result float64.
Variable similarity : S.
Variable abundance : A.

(** The measures of the class, by name. *)
Definition subcommunity (m : measure) : float64 -> result vector :=
  match m with
  | Alpha => Metacommunity.subcommunity_alpha power_mean similarity abundance
  | Rho => Metacommunity.subcommunity_rho power_mean similarity abundance
  | Beta => Metacommunity.subcommunity_beta power_mean similarity abundance
  | Gamma => Metacommunity.subcommunity_gamma power_mean similarity abundance
  | Normalized_alpha =>
      Metacommunity.normalized_subcommunity_alpha power_mean similarity abundance
  | Normalized_rho =>
      Metacommunity.normalized_subcommunity_rho power_mean similarity abundance
  | Normalized_beta =>
      Metacommunity.normalized_subcommunity_beta power_mean similarity abundance
  end.

Definition metacommunity (m : measure) : float64 -> result float64 :=
  match m with
  | Alpha => Metacommunity.metacommunity_alpha power_mean similarity abundance
  | Rho => Metacommunity.metacommunity_rho power_mean similarity abundance
  | Beta => Metacommunity.metacommunity_beta power_mean similarity abundance
  | Gamma => Metacommunity.metacommunity_gamma power_mean similarity abundance
  | Normalized_alpha =>
      Metacommunity.normalized_metacommunity_alpha power_mean similarity abundance
  | Normalized_rho =>
      Metacommunity.normalized_metacommunity_rho power_mean similarity abundance
  | Normalized_beta =>
      Metacommunity.normalized_metacommunity_beta power_mean similarity abundance
  end.

(** The numerator and the denominator of a subcommunity measure as the
    table of the spec lists them; beta has those of rho. *)
Definition spec_ratio (m : measure) : result (Metacommunity.operand * matrix) :=
  match m with
  | Alpha =>
      d <- Metacommunity.subcommunity_similarity similarity abundance ;;
      Ok (Metacommunity.Scalar one, d)
  | Rho | Beta =>
      n <- Metacommunity.metacommunity_similarity similarity abundance ;;
      d <- Metacommunity.subcommunity_similarity similarity abundance ;;
      Ok (Metacommunity.Array n, d)
  | Gamma =>
      n <- Metacommunity.metacommunity_similarity similarity abundance ;;
      d <- Metacommunity.broadcast_to n
             (SimilarityFromFile.shape
                (normalized_subcommunity_abundance abundance)) ;;
      Ok (Metacommunity.Scalar one, d)
  | Normalized_alpha =>
      d <- Metacommunity.normalized_subcommunity_similarity similarity abundance ;;
      Ok (Metacommunity.Scalar one, d)
  | Normalized_rho | Normalized_beta =>
      n <- Metacommunity.metacommunity_similarity similarity abundance ;;
      d <- Metacommunity.normalized_subcommunity_similarity similarity abundance ;;
      Ok (Metacommunity.Array n, d)
  end.

(** [means] holds the power means of the columns of [items]: for every
    subcommunity the power mean of its column of [items] weighted by its
    column of [weights]. *)
Definition power_means (order : float64) (weights items : matrix)
  (means : vector) : Prop :=
  length means = ncols items /\
  forall j, j < ncols items ->
    power_mean order (col j weights) (col j items) = Ok (nth j means NaN).

Lemma power_mean_axis0_columns (order : float64) (weights items : matrix)
  (means : vector) :
  Metacommunity.power_mean_axis0 power_mean order weights items = Ok means ->
  length means = ncols items /\
  forall j, j < ncols items ->
    power_mean order (col j weights) (col j items) = Ok (nth j means NaN).
Proof.
  unfold Metacommunity.power_mean_axis0. intros E.
  apply mapM_Forall2 in E. split.
  - apply Forall2_length in E. rewrite length_seq in E. lia.
  - intros j Hj.
    apply (Forall2_nth _ _ _ j 0 NaN) in E; [|rewrite length_seq; assumption].
    rewrite seq_nth in E by assumption. exact E.
Qed.

Lemma power_mean_axis0_means (order : float64) (weights items : matrix)
  (means : vector) :
  Metacommunity.power_mean_axis0 power_mean order weights items = Ok means <->
  power_means order weights items means.
Proof.
  split; [apply power_mean_axis0_columns|].
  intros [Hl Hm]. unfold Metacommunity.power_mean_axis0.
  apply (mapM_of_nth _ NaN); assumption.
Qed.

(** How the class assembles a subcommunity measure. *)
Lemma subcommunity_measure_steps (m : measure) (viewpoint : float64) :
  subcommunity m viewpoint
  = (ratio <- spec_ratio m ;;
     similarities <- Metacommunity.divide (fst ratio) (snd ratio) ;;
     means <- Metacommunity.power_mean_axis0 power_mean (one - viewpoint)%float
                (normalized_subcommunity_abundance abundance) similarities ;;
     Ok (if is_beta m then map (fdiv one) means else means)).
Proof.
  unfold spec_ratio.
  destruct m; cbn [subcommunity is_beta];
    unfold Metacommunity.subcommunity_alpha, Metacommunity.subcommunity_beta,
      Metacommunity.subcommunity_rho, Metacommunity.subcommunity_gamma,
      Metacommunity.normalized_subcommunity_alpha,
      Metacommunity.normalized_subcommunity_beta,
      Metacommunity.normalized_subcommunity_rho,
      Metacommunity.subcommunity_measure;
    repeat match goal with
           | |- context [bind ?r _] =>
               match r with
               | bind _ _ => fail 1
               | Ok _ => fail 1
               | _ => destruct r; cbn [bind fst snd]
               end
           end;
    reflexivity.
Qed.

(** C2.  The ratio: [divide] returns exactly when the shapes of numerator
    and denominator go together, whatever the entries are, and then every
    entry of the array it returns is 0 where the denominator is 0 and
    numerator / denominator elsewhere; otherwise it raises [ValueError].
    The measures: a subcommunity measure returns exactly when its
    numerator and denominator are computed, their shapes go together and
    the power means of order 1 - viewpoint of the columns of their ratio,
    weighted by the normalized subcommunity abundances, are computed, and
    its value is the array of these means (for beta, of their
    reciprocals); every metacommunity measure is the power mean of the
    same order of the subcommunity measure, weighted by the normalizing
    constants. *)
Theorem measures_are_power_means_of_ratios (m : measure) (viewpoint : float64) :
  (forall numerator denominator similarities,
     Metacommunity.divide numerator denominator = Ok similarities <->
     compatible numerator denominator /\
     ratios numerator denominator similarities) /\
  (forall numerator denominator e,
     Metacommunity.divide numerator denominator = Raise e ->
     e = ValueError /\ ~ compatible numerator denominator) /\
  (forall value,
     subcommunity m viewpoint = Ok value <->
     exists numerator denominator similarities means,
       spec_ratio m = Ok (numerator, denominator) /\
       compatible numerator denominator /\
       ratios numerator denominator similarities /\
       power_means (one - viewpoint)%float
         (normalized_subcommunity_abundance abundance) similarities means /\
       value = if is_beta m then map (fdiv one) means else means) /\
  metacommunity m viewpoint
  = (items <- subcommunity m viewpoint ;;
     power_mean (one - viewpoint)%float
       (subcommunity_normalizing_constants abundance) items).
Proof.
  split; [|split; [|split]].
  - apply divide_characterization.
  - intros numerator denominator e E. split; [apply (divide_raises _ _ _ E)|].
    intros Hc. apply divide_returns in Hc. destruct Hc as [s' E'].
    rewrite E in E'. discriminate.
  - intros value. rewrite subcommunity_measure_steps. split.
    + destruct (spec_ratio m) as [[numerator denominator]|]; [|discriminate].
      rewrite bind_Ok. cbn [fst snd].
      destruct (Metacommunity.divide numerator denominator)
        as [similarities|] eqn:Ed; [|discriminate].
      rewrite bind_Ok.
      destruct (Metacommunity.power_mean_axis0 _ _ _ _) as [means|] eqn:Em;
        [|discriminate].
      rewrite bind_Ok. intros E. injection E as Ev.
      apply divide_characterization in Ed. destruct Ed as [Hc Hr].
      apply power_mean_axis0_means in Em.
      exists numerator, denominator, similarities, means.
      split; [reflexivity|]. split; [exact Hc|]. split; [exact Hr|].
      split; [exact Em|]. symmetry. exact Ev.
    + intros (numerator & denominator & similarities & means
              & Er & Hc & Hr & Hm & Ev).
      rewrite Er, bind_Ok. cbn [fst snd].
      rewrite (proj2 (divide_characterization _ _ _) (conj Hc Hr)), bind_Ok.
      rewrite (proj2 (power_mean_axis0_means _ _ _ _) Hm), bind_Ok.
      rewrite Ev. reflexivity.
  - destruct m; reflexivity.
Qed.

End MeasureFacts.

(** ** Beta and rho *)

Lemma positive_nonzero (q : Qc) : is_positive (Fin q) = true -> is_zero q = false.
Proof.
  intros Hp. destruct (is_zero q) eqn:E; [|reflexivity].
  apply is_zero_true in E. subst q. discriminate Hp.
Qed.

(** [b] is the reciprocal of [r]: it is 1 / r as numpy divides, which for
    a finite [r] is the rational 1 / r. *)
Definition reciprocal (b r : float64) : Prop :=
  b = (one / r)%float /\ forall q : Qc, r = Fin q -> b = Fin (1 / q).

Lemma reciprocal_of_positive (rho : vector) :
  Forall (fun r => is_positive r = true) rho ->
  Forall2 reciprocal (map (fdiv one) rho) rho.
Proof.
  induction 1 as [|r rho Hr _ IH]; simpl; constructor; [|assumption].
  split; [reflexivity|]. intros q E. subst r. simpl.
  rewrite (positive_nonzero q Hr). reflexivity.
Qed.

Section BetaFacts.

Context {S A : Type} `{ISimilarity S} `{IAbundance A}.

Variable power_mean : float64 -> vector -> vector -> result float64.
Variable similarity : S.
Variable abundance : A.

(** C6.  At a viewpoint where every entry of subcommunity rho is strictly
    positive, subcommunity beta is 1 / rho entry by entry; and whenever the
    normalized rho is returned, the normalized beta is 1 / normalized rho
    entry by entry, the rational reciprocal where the normalized rho is
    strictly positive. *)
Theorem beta_is_reciprocal_of_rho (viewpoint : float64) (rho : vector) :
  Metacommunity.subcommunity_rho power_mean similarity abundance viewpoint
  = Ok rho ->
  Forall (fun r => is_positive r = true) rho ->
  (exists beta,
     Metacommunity.subcommunity_beta power_mean similarity abundance viewpoint
     = Ok beta /\ Forall2 reciprocal beta rho) /\
  (forall normalized_rho,
     Metacommunity.normalized_subcommunity_rho power_mean similarity abundance
       viewpoint = Ok normalized_rho ->
     exists normalized_beta,
       Metacommunity.normalized_subcommunity_beta power_mean similarity
         abundance viewpoint = Ok normalized_beta /\
       Forall2 (fun b r => b = (one / r)%float) normalized_beta normalized_rho /\
       (Forall (fun r => is_positive r = true) normalized_rho ->
        Forall2 reciprocal normalized_beta normalized_rho)).
Proof.
  intros Hrho Hpos. split.
  - exists (map (fdiv one) rho). split.
    + unfold Metacommunity.subcommunity_beta. rewrite Hrho. reflexivity.
    + apply reciprocal_of_positive, Hpos.
  - intros normalized_rho Hnrho.
    exists (map (fdiv one) normalized_rho). split; [|split].
    + unfold Metacommunity.normalized_subcommunity_beta. rewrite Hnrho.
      reflexivity.
    + clear. induction normalized_rho; simpl; constructor;
        [reflexivity|assumption].
    + apply reciprocal_of_positive.
Qed.

End BetaFacts.

(** ** The example of the tests (main_test.py)

    Six species, one of each, the first three in subcommunity_1 and the
    other three in subcommunity_2.  The counts are given as the species by
    subcommunity table of the input file. *)

Module Example.

Definition counts : Abundance.counts_t :=
  [[1; 0]; [1; 0]; [1; 0]; [0; 1]; [0; 1]; [0; 1]]%Z.

Definition subcommunity_order : list string :=
  ["subcommunity_1"; "subcommunity_2"]%string.

(** A similarity matrix of the six species: 1 on the diagonal, [within]
    between two species of one subcommunity, [across] between species of
    different subcommunities. *)
Definition block_similarity (within across : float64) : matrix :=
  let w := within in
  let a := across in
  [[one; w; w; a; a; a];
   [w; one; w; a; a; a];
   [w; w; one; a; a; a];
   [a; a; a; one; w; w];
   [a; a; a; w; one; w];
   [a; a; a; w; w; one]].

(** The rows of [mock_matrix_file]. *)
Definition mock_matrix_file : matrix :=
  block_similarity (of_Q (5 # 10)) (of_Q (7 # 10)).

(** The matrix the claim describes: similarity 1.0 within a subcommunity
    and 0.7 across. *)
Definition stated_matrix : matrix :=
  block_similarity (of_Q 1) (of_Q (7 # 10)).

Definition TEST_VIEWPOINT : float64 := of_Z 0.

Definition decimal (digits : Z) (scale : positive) : float64 :=
  of_Q (digits # scale).

Definition TEST_DF : Metacommunity.frame :=
  {| Metacommunity.community := subcommunity_order;
     Metacommunity.viewpoint := of_Z 0;
     Metacommunity.alpha := [decimal 30 10; decimal 30 10];
     Metacommunity.rho := [decimal 205 100; decimal 205 100];
     Metacommunity.beta := [decimal 487805 1000000; decimal 487805 1000000];
     Metacommunity.gamma := [decimal 1463415 1000000; decimal 1463415 1000000];
     Metacommunity.normalized_alpha := [decimal 15 10; decimal 15 10];
     Metacommunity.normalized_rho := [decimal 1025 1000; decimal 1025 1000];
     Metacommunity.normalized_beta := [decimal 97561 100000; decimal 97561 100000] |}.

(** The exact values of the measures of the example. *)
Definition exact_frame : Metacommunity.frame :=
  {| Metacommunity.community := subcommunity_order;
     Metacommunity.viewpoint := of_Z 0;
     Metacommunity.alpha := [of_Q 3; of_Q 3];
     Metacommunity.rho := [of_Q (41 # 20); of_Q (41 # 20)];
     Metacommunity.beta := [of_Q (20 # 41); of_Q (20 # 41)];
     Metacommunity.gamma := [of_Q (60 # 41); of_Q (60 # 41)];
     Metacommunity.normalized_alpha := [of_Q (3 # 2); of_Q (3 # 2)];
     Metacommunity.normalized_rho := [of_Q (41 # 40); of_Q (41 # 40)];
     Metacommunity.normalized_beta := [of_Q (40 # 41); of_Q (40 # 41)] |}.

(** [x] and [y] are finite and differ by at most one millionth. *)
Definition close (x y : float64) : bool :=
  match x, y with
  | Fin a, Fin b =>
      match (Qabs (a - b)%Qc ?= 1 # 1000000)%Q with Gt => false | _ => true end
  | _, _ => false
  end.

Definition all_close (u v : vector) : bool :=
  Nat.eqb (length u) (length v) &&
  forallb (fun p => close (fst p) (snd p)) (combine u v).

Definition frames_close (f g : Metacommunity.frame) : bool :=
  all_close (Metacommunity.alpha f) (Metacommunity.alpha g) &&
  all_close (Metacommunity.rho f) (Metacommunity.rho g) &&
  all_close (Metacommunity.beta f) (Metacommunity.beta g) &&
  all_close (Metacommunity.gamma f) (Metacommunity.gamma g) &&
  all_close (Metacommunity.normalized_alpha f) (Metacommunity.normalized_alpha g) &&
  all_close (Metacommunity.normalized_rho f) (Metacommunity.normalized_rho g) &&
  all_close (Metacommunity.normalized_beta f) (Metacommunity.normalized_beta g).

(** The data frame of subcommunity measures for a similarity matrix held
    in memory, with the power mean of the spec. *)
Definition subcommunities_to_dataframe (similarity_matrix : matrix)
  (viewpoint : float64) : result Metacommunity.frame :=
  Metacommunity.subcommunities_to_dataframe Utilities.power_mean
    (SimilarityFromMemory.mk similarity_matrix) counts subcommunity_order
    viewpoint.

End Example.

(** C1, as the code and its test have it.  For six species, one of each,
    three per subcommunity, with similarity 1.0 of a species to itself, 0.5
    between two species of one subcommunity and 0.7 across subcommunities,
    the measures at viewpoint 0 are, for both subcommunities, alpha = 3,
    rho = 41/20 = 2.05, beta = 20/41, gamma = 60/41, normalized alpha = 3/2,
    normalized rho = 41/40 = 1.025 and normalized beta = 40/41, which are
    the values of the test within one millionth. *)
Theorem example_of_the_test :
  Example.subcommunities_to_dataframe Example.mock_matrix_file
    Example.TEST_VIEWPOINT = Ok Example.exact_frame /\
  Example.frames_close Example.exact_frame Example.TEST_DF = true.
Proof. split; by_evaluation. Qed.

(** C1 as stated fails: with similarity 1.0 between all the species of a
    subcommunity and 0.7 across, alpha is 2 and not 3, rho is 17/10,
    beta 10/17, gamma 20/17, normalized alpha 1, normalized rho 17/20 and
    normalized beta 20/17. *)
Lemma stated_example_has_other_values :
  Example.subcommunities_to_dataframe Example.stated_matrix
    Example.TEST_VIEWPOINT
  = Ok {| Metacommunity.community := Example.subcommunity_order;
          Metacommunity.viewpoint := of_Z 0;
          Metacommunity.alpha := [of_Q 2; of_Q 2];
          Metacommunity.rho := [of_Q (17 # 10); of_Q (17 # 10)];
          Metacommunity.beta := [of_Q (10 # 17); of_Q (10 # 17)];
          Metacommunity.gamma := [of_Q (20 # 17); of_Q (20 # 17)];
          Metacommunity.normalized_alpha := [of_Q 1; of_Q 1];
          Metacommunity.normalized_rho := [of_Q (17 # 20); of_Q (17 # 20)];
          Metacommunity.normalized_beta := [of_Q (20 # 17); of_Q (20 # 17)] |} /\
  Example.close (of_Q 2) (of_Q 3) = false /\
  of_Q 2 <> of_Q 3.
Proof.
  split; [by_evaluation|]. split; [reflexivity|].
  intros E. inversion E.
Qed.

Lemma beta_is_reciprocal_of_rho_witness :
  let similarity := SimilarityFromMemory.mk Example.mock_matrix_file in
  (exists beta,
     Metacommunity.subcommunity_beta Utilities.power_mean similarity
       Example.counts Example.TEST_VIEWPOINT = Ok beta /\
     Forall2 reciprocal beta [of_Q (41 # 20); of_Q (41 # 20)]) /\
  (exists normalized_beta,
     Metacommunity.normalized_subcommunity_beta Utilities.power_mean similarity
       Example.counts Example.TEST_VIEWPOINT = Ok normalized_beta /\
     Forall2 reciprocal normalized_beta [of_Q (41 # 40); of_Q (41 # 40)]).
Proof.
  intros similarity.
  destruct (beta_is_reciprocal_of_rho Utilities.power_mean similarity
              Example.counts Example.TEST_VIEWPOINT
              [of_Q (41 # 20); of_Q (41 # 20)])
    as [Hbeta Hnormalized].
  - by_evaluation.
  - repeat constructor.
  - split; [exact Hbeta|].
    destruct (Hnormalized [of_Q (41 # 40); of_Q (41 # 40)])
      as (normalized_beta & E & _ & Hrec).
    + by_evaluation.
    + exists normalized_beta. split; [exact E|].
      apply Hrec. repeat constructor.
Defined.

(** ** The factory of backends *)

(** C10.  Given [None], [make_similarity] returns [None]: it builds no
    backend and raises nothing, and [None] is the only argument for which
    it does so; an argument of any other unsupported class raises an error
    whose message names the class. *)
Theorem make_similarity_of_none (F : Type) (X : list F) (chunk_size : nat) :
  MakeSimilarity.make_similarity MakeSimilarity.PyNone X chunk_size = Ok None /\
  (forall similarity,
     MakeSimilarity.make_similarity similarity X chunk_size = Ok None ->
     similarity = MakeSimilarity.PyNone) /\
  (forall type_name,
     exists rest,
       MakeSimilarity.make_similarity (MakeSimilarity.PyOther type_name) X
         chunk_size
       = Raise (NotImplementedError ("Type " ++ type_name ++ rest)%string)).
Proof.
  split; [reflexivity|]. split.
  - intros [ | m | m | m | file | f | type_name]; simpl; intros E;
      try discriminate; reflexivity.
  - intros type_name. eexists. reflexivity.
Qed.

(** * Further properties of the code *)

(** ** More on [Abundance] *)

Lemma Zsum_zip_add (r acc : list Z) :
  length r = length acc ->
  fold_right Z.add 0%Z (zip_with Z.add r acc)
  = (fold_right Z.add 0%Z r + fold_right Z.add 0%Z acc)%Z.
Proof.
  revert acc. induction r as [|c r IH]; intros [|s acc] E; simpl in *;
    try discriminate; [reflexivity|]. rewrite IH by lia. lia.
Qed.

Lemma Zsum_repeat_zero (k : nat) : fold_right Z.add 0%Z (repeat 0%Z k) = 0%Z.
Proof. induction k; simpl; lia. Qed.

Lemma Zsum_app (l l' : list Z) :
  fold_right Z.add 0%Z (l ++ l')
  = (fold_right Z.add 0%Z l + fold_right Z.add 0%Z l')%Z.
Proof. induction l; simpl; lia. Qed.

Lemma column_totals_sum (counts : Abundance.counts_t) :
  rectangular (ncols counts) counts ->
  fold_right Z.add 0%Z (Abundance.column_totals counts) = grand_total counts.
Proof.
  unfold Abundance.column_totals, grand_total.
  generalize (ncols counts) as k. intros k Hrect.
  induction Hrect as [|r counts Hr Hrect IH]; simpl.
  - apply Zsum_repeat_zero.
  - rewrite Zsum_zip_add, Zsum_app, IH; [reflexivity|].
    rewrite (column_totals_length k counts Hrect). assumption.
Qed.

(** X3.  The normalizing constants of a metacommunity with counts within
    the range and a positive grand total sum to 1: they are weights. *)
Theorem normalizing_constants_sum_to_one (counts : Abundance.counts_t) :
  in_range counts ->
  (0 < grand_total counts)%Z ->
  rectangular (ncols counts) counts ->
  sum (Abundance.subcommunity_normalizing_constants counts) = one.
Proof.
  intros Hin Hg Hrect.
  pose proof (total_abundance_in_range counts Hin) as Htot.
  assert (Ht : Abundance.total_abundance counts <> 0%Z) by lia.
  rewrite normalizing_constants_eq by assumption.
  rewrite <- (map_map (fun s => (zc s / zc (Abundance.total_abundance counts))%Qc) Fin).
  rewrite sum_Fin, qsum_div, column_totals_sum, <- Htot by assumption.
  unfold one. f_equal. field. apply zc_neq_0. assumption.
Qed.

(** [x] is a finite number between 0 and 1. *)
Definition in_unit_interval (x : float64) : Prop :=
  match x with
  | Fin q => (Q2Qc 0 <= q /\ q <= Q2Qc 1)%Qc
  | _ => False
  end.

Lemma this_zc_div (a b : Z) :
  (this (zc a / zc b)%Qc == inject_Z a / inject_Z b)%Q.
Proof.
  unfold zc, Qcdiv, Qcmult, Qcinv, Q2Qc. cbn [this].
  rewrite !Qred_correct. reflexivity.
Qed.

Lemma quotient_in_unit_interval (a b : Z) :
  (0 <= a <= b)%Z -> (0 < b)%Z -> in_unit_interval (Fin (zc a / zc b)).
Proof.
  intros Ha Hb. unfold in_unit_interval, Qcle.
  rewrite this_zc_div. cbn [this Q2Qc]. rewrite !Qred_correct.
  assert (Hb' : (0 < inject_Z b)%Q).
  { change (inject_Z 0 < inject_Z b)%Q. rewrite <- Zlt_Qlt. assumption. }
  split.
  - apply Qle_shift_div_l; [assumption|]. rewrite Qmult_0_l.
    change (inject_Z 0 <= inject_Z a)%Q. rewrite <- Zle_Qle. lia.
  - apply Qle_shift_div_r; [assumption|]. rewrite Qmult_1_l.
    rewrite <- Zle_Qle. lia.
Qed.

(** [x] is a finite number that is not negative. *)
Definition nonnegative_finite (x : float64) : Prop :=
  match x with
  | Fin q => (Q2Qc 0 <= q)%Qc
  | _ => False
  end.

Lemma in_unit_interval_nonnegative (x : float64) :
  in_unit_interval x -> nonnegative_finite x.
Proof. destruct x; simpl; tauto. Qed.

Lemma row_sum_bounds (counts : Abundance.counts_t) (r : list Z) :
  nonnegative counts -> In r counts ->
  (0 <= fold_right Z.add 0%Z r <= grand_total counts)%Z.
Proof.
  unfold grand_total.
  induction 1 as [|x counts Hx Hc IH]; intros Hin; [contradiction|].
  simpl. rewrite Zsum_app.
  pose proof (Zsum_nonneg x Hx).
  pose proof (Zsum_nonneg _ (concat_nonneg counts Hc)).
  destruct Hin as [E|Hin].
  - subst. lia.
  - specialize (IH Hin). lia.
Qed.

Lemma normalized_entry (t c s : Z) :
  t <> 0%Z -> s <> 0%Z ->
  (of_Z c / of_Z t / Fin (zc s / zc t))%float = Fin (zc c / zc s).
Proof.
  intros Ht Hs. rewrite fdiv_of_Z by assumption. simpl.
  rewrite is_zero_false by (apply Qcdiv_neq_0; apply zc_neq_0; assumption).
  f_equal. field. split; apply zc_neq_0; assumption.
Qed.

Lemma normalized_row_in_unit_interval (t : Z) (r d : list Z) :
  t <> 0%Z ->
  Forall2 (fun c s => (0 <= c <= s)%Z) r d ->
  Forall (fun s => (0 < s)%Z) d ->
  Forall in_unit_interval
    (zip_with fdiv (map (fun c => of_Z c / of_Z t)%float r)
                   (map (fun s => Fin (zc s / zc t)) d)).
Proof.
  intros Ht Hrd. induction Hrd as [|c s r d Hcs _ IH]; intros Hd;
    cbn [map zip_with]; [constructor|].
  inversion Hd; subst. constructor; [|apply IH; assumption].
  rewrite normalized_entry by lia. apply quotient_in_unit_interval; lia.
Qed.

(** X4.  For counts within the range with a positive grand total, every
    relative subcommunity abundance is a finite number between 0 and 1, and
    so is every normalized abundance when no subcommunity is empty; the
    metacommunity abundances and the normalizing constants, which are sums
    of subcommunity abundances, are finite and not negative. *)
Theorem abundances_in_unit_interval (counts : Abundance.counts_t) :
  in_range counts ->
  rectangular (ncols counts) counts ->
  (0 < grand_total counts)%Z ->
  Forall (Forall in_unit_interval) (Abundance.subcommunity_abundance counts) /\
  Forall (Forall nonnegative_finite) (Abundance.metacommunity_abundance counts) /\
  Forall nonnegative_finite (Abundance.subcommunity_normalizing_constants counts) /\
  (Forall (fun s => (0 < s)%Z) (Abundance.column_totals counts) ->
   Forall (Forall in_unit_interval)
          (Abundance.normalized_subcommunity_abundance counts)).
Proof.
  intros Hin Hrect Hg.
  pose proof (total_abundance_in_range counts Hin) as Htot.
  destruct Hin as [Hnn Hlt].
  assert (Ht : (0 < Abundance.total_abundance counts)%Z) by lia.
  assert (Hnz : Abundance.total_abundance counts <> 0%Z) by lia.
  destruct (rows_below_totals _ _ Hrect Hnn) as [Htotals Hrows].
  fold (Abundance.column_totals counts) in Htotals, Hrows.
  split; [|split; [|split]].
  - unfold Abundance.subcommunity_abundance.
    apply Forall_map, Forall_forall. intros r Hr.
    apply Forall_map, Forall_forall. intros c Hc.
    rewrite fdiv_of_Z by assumption. apply quotient_in_unit_interval; [|lia].
    rewrite Htot. apply Zsum_bounds; [apply concat_nonneg, Hnn|].
    apply in_concat. exists r. split; assumption.
  - unfold Abundance.metacommunity_abundance, sum_axis1_keepdims,
      Abundance.subcommunity_abundance.
    rewrite map_map. apply Forall_map, Forall_forall. intros r Hr.
    constructor; [|constructor]. apply in_unit_interval_nonnegative.
    rewrite <- (row_sum_scaled counts Hnz), sum_of_Z, fdiv_of_Z by assumption.
    apply quotient_in_unit_interval; [|lia].
    rewrite Htot. apply row_sum_bounds; assumption.
  - rewrite normalizing_constants_eq by assumption.
    apply Forall_map, Forall_forall. intros s Hs.
    apply in_unit_interval_nonnegative.
    apply quotient_in_unit_interval; [|lia].
    rewrite Htot, <- (column_totals_sum counts Hrect).
    apply Zsum_bounds; assumption.
  - intros Hpos. unfold Abundance.normalized_subcommunity_abundance, div_rows,
      Abundance.subcommunity_abundance.
    rewrite normalizing_constants_eq by assumption.
    rewrite map_map. apply Forall_map, Forall_forall. intros r Hr.
    apply normalized_row_in_unit_interval; [assumption|apply Hrows, Hr|assumption].
Qed.

Lemma abundances_in_unit_interval_witness :
  let counts := [[1; 0]; [2; 3]]%Z in
  Forall (Forall in_unit_interval) (Abundance.subcommunity_abundance counts) /\
  Forall (Forall in_unit_interval)
         (Abundance.normalized_subcommunity_abundance counts).
Proof.
  intros counts.
  destruct (abundances_in_unit_interval counts) as (Hs & _ & _ & Hn).
  - split; [repeat constructor; discriminate|reflexivity].
  - repeat constructor.
  - reflexivity.
  - split; [exact Hs|]. apply Hn. vm_compute. repeat constructor.
Defined.

(** X5.  For counts within the range with a positive grand total and no
    empty subcommunity, the metacommunity abundance of a species is the
    mean of its normalized subcommunity abundances weighted by the
    normalizing constants. *)
Theorem metacommunity_abundance_is_weighted_mean (counts : Abundance.counts_t) :
  in_range counts ->
  (0 < grand_total counts)%Z ->
  rectangular (ncols counts) counts ->
  Forall (fun s => s <> 0%Z) (Abundance.column_totals counts) ->
  map (fun r => [dot r (Abundance.subcommunity_normalizing_constants counts)])
      (Abundance.normalized_subcommunity_abundance counts)
  = Abundance.metacommunity_abundance counts.
Proof.
  intros Hin Hg Hrect Hcols.
  pose proof (total_abundance_in_range counts Hin) as Htot.
  assert (Ht : Abundance.total_abundance counts <> 0%Z) by lia.
  unfold Abundance.metacommunity_abundance, sum_axis1_keepdims.
  rewrite <- (rescaled_normalized counts Ht Hrect Hcols).
  rewrite map_map. reflexivity.
Qed.

Lemma normalizing_constants_sum_to_one_witness :
  sum (Abundance.subcommunity_normalizing_constants [[1; 0]; [2; 3]]%Z) = one.
Proof.
  apply normalizing_constants_sum_to_one.
  - split; [repeat constructor; discriminate|reflexivity].
  - reflexivity.
  - repeat constructor.
Defined.

Lemma metacommunity_abundance_is_weighted_mean_witness :
  let counts := [[1; 0]; [2; 3]]%Z in
  map (fun r => [dot r (Abundance.subcommunity_normalizing_constants counts)])
      (Abundance.normalized_subcommunity_abundance counts)
  = Abundance.metacommunity_abundance counts.
Proof.
  intros counts. apply metacommunity_abundance_is_weighted_mean.
  - split; [repeat constructor; discriminate|reflexivity].
  - reflexivity.
  - repeat constructor.
  - vm_compute. repeat constructor; discriminate.
Defined.

(** ** Chunks *)





(** Arrays of finite numbers. *)
Definition all_finite (m : matrix) : Prop :=
  Forall (Forall (fun x => finite x = true)) m.

(** ** [SimilarityFromFile] of metacommunity.py: a subset of the species

    The file holds a square matrix under a header of species names; only
    the rows and columns of the species of [species_subset] are read.  The
    header is the list of column labels as [read_csv] returns them. *)

Module SimilarityFromFileSubset.

(** [species.isin(species_subset)] *)
Definition isin (species species_subset : list string) : list bool :=
  map (fun s => existsb (String.eqb s) species_subset) species.

(** [numpy.flatnonzero] of a boolean array: the positions that hold True,
    counted from [i] on. *)
Fixpoint flatnonzero_from (i : nat) (mask : list bool) : list nat :=
  match mask with
  | [] => []
  | b :: mask' =>
      (if b then [i] else []) ++ flatnonzero_from (S i) mask'
  end.

Definition flatnonzero (mask : list bool) : list nat := flatnonzero_from 0 mask.

(** [species[species_subset_indices]] *)
Definition boolean_index {A : Type} (l : list A) (mask : list bool) : list A :=
  map fst (filter snd (combine l mask)).

(** [__get_species_order] *)
Definition get_species_order (file : SimilarityFromFile.csv)
  (species_subset : list string) : list string * list nat * list nat :=
  let species := SimilarityFromFile.header file in
  let species_subset_indices := isin species species_subset in
  let species_order := boolean_index species species_subset_indices in
  let usecols := flatnonzero species_subset_indices in
  let skiprows := map S (flatnonzero (map negb species_subset_indices)) in
  (species_order, usecols, skiprows).

Record t : Type := mk {
  similarity_matrix : SimilarityFromFile.csv;
  chunk_size : nat;
  __species_order : list string;
  __usecols : list nat;
  __skiprows : list nat
}.

(** [__init__] *)
Definition init (similarity_matrix : SimilarityFromFile.csv)
  (species_subset : list string) (chunk_size : nat) : t :=
  let '(species_order, usecols, skiprows) :=
    get_species_order similarity_matrix species_subset in
  {| similarity_matrix := similarity_matrix;
     chunk_size := chunk_size;
     __species_order := species_order;
     __usecols := usecols;
     __skiprows := skiprows |}.

Definition species_order (self : t) : list string := __species_order self.

(** The rows [read_csv] keeps under [skiprows]: line 0 is the header, so
    the data row at position [i] is line [i + 1]. *)
Definition keep_rows (skiprows : list nat) (rows : matrix) : matrix :=
  map snd
      (filter (fun p => negb (existsb (Nat.eqb (S (fst p))) skiprows))
              (combine (seq 0 (length rows)) rows)).

(** The fields [read_csv] keeps under [usecols]; a row shorter than the
    header is padded with NaN. *)
Definition keep_columns (usecols : list nat) (row : vector) : vector :=
  map (fun j => nth j row NaN) usecols.

(** [read_csv(..., chunksize=, usecols=, skiprows=)] *)
Definition read_csv (file : SimilarityFromFile.csv) (chunksize : nat)
  (usecols skiprows : list nat) : result (list matrix) :=
  let kept :=
    map (keep_columns usecols) (keep_rows skiprows (SimilarityFromFile.rows file)) in
  if Nat.eqb chunksize 0 then Raise ValueError
  else Ok (SimilarityFromFile.chunks chunksize kept).

(** The loop is the one of [SimilarityFromFile] of similarity.py. *)
Definition calculate_weighted_similarities (memory : nat -> nat -> float64)
  (self : t) (relative_abundances : matrix) : result matrix :=
  let weighted_similarities :=
    SimilarityFromFile.empty (SimilarityFromFile.shape relative_abundances)
                             memory in
  similarity_matrix_chunks <-
    read_csv (similarity_matrix self) (chunk_size self) (__usecols self)
             (__skiprows self) ;;
  SimilarityFromFile.store_chunks (chunk_size self) relative_abundances
    similarity_matrix_chunks 0 weighted_similarities.

End SimilarityFromFileSubset.

#[export] Instance SimilarityFromFileSubset_ISimilarity
  (memory : nat -> nat -> float64) : ISimilarity SimilarityFromFileSubset.t :=
  {| calculate_weighted_similarities :=
       SimilarityFromFileSubset.calculate_weighted_similarities memory |}.

(** The part of a list at the positions a mask holds True. *)
Definition masked {A : Type} (mask : list bool) (l : list A) : list A :=
  map snd (filter fst (combine mask l)).

(** The rows and the columns of the species the mask selects. *)
Definition submatrix (mask : list bool) (m : matrix) : matrix :=
  map (masked mask) (masked mask m).

Import SimilarityFromFileSubset.

Lemma flatnonzero_from_shift (i : nat) (mask : list bool) :
  flatnonzero_from (S i) mask = map S (flatnonzero_from i mask).
Proof.
  revert i. induction mask as [|b mask IH]; intros i; simpl; [reflexivity|].
  rewrite map_app, IH. destruct b; reflexivity.
Qed.

Lemma keep_columns_masked (mask : list bool) (row : vector) :
  length mask <= length row ->
  keep_columns (flatnonzero mask) row = masked mask row.
Proof.
  unfold keep_columns, flatnonzero, masked. revert row.
  induction mask as [|b mask IH]; intros [|x row] Hlen; simpl in *;
    try lia; try reflexivity.
  rewrite flatnonzero_from_shift, map_app, map_map.
  cbn [nth]. rewrite IH by lia. destruct b; reflexivity.
Qed.

Lemma flatnonzero_from_In (x i : nat) (mask : list bool) :
  In x (flatnonzero_from i mask) <->
  exists k, x = i + k /\ nth k mask false = true.
Proof.
  revert i. induction mask as [|b mask IH]; intros i; simpl.
  - split; [intros []|]. intros (k & _ & Hk). destruct k; discriminate.
  - rewrite in_app_iff, IH. split.
    + intros [Hb|(k & E & Hk)].
      * destruct b; [|contradiction]. destruct Hb as [Hb|[]]. subst.
        exists 0. split; [lia|reflexivity].
      * exists (S k). split; [lia|assumption].
    + intros (k & E & Hk). destruct k as [|k].
      * left. subst b. left. lia.
      * right. exists k. split; [lia|assumption].
Qed.

Lemma flatnonzero_In (x : nat) (mask : list bool) :
  In x (flatnonzero mask) <-> nth x mask false = true.
Proof.
  unfold flatnonzero. rewrite flatnonzero_from_In. split.
  - intros (k & E & Hk). simpl in E. subst. assumption.
  - intros Hx. exists x. split; [reflexivity|assumption].
Qed.

Lemma existsb_eqb_In (x : nat) (l : list nat) :
  existsb (Nat.eqb x) l = true <-> In x l.
Proof.
  rewrite existsb_exists. split.
  - intros (y & Hy & E). apply Nat.eqb_eq in E. subst. assumption.
  - intros Hx. exists x. split; [assumption|apply Nat.eqb_refl].
Qed.

Lemma keep_rows_from (i : nat) (mask : list bool) (rows : matrix) :
  length mask = length rows ->
  map snd
      (filter (fun p => negb (existsb (Nat.eqb (S (fst p)))
                                      (map S (flatnonzero_from i (map negb mask)))))
              (combine (seq i (length rows)) rows))
  = masked mask rows.
Proof.
  unfold masked. revert i rows.
  induction mask as [|b mask IH]; intros i [|row rows] Hlen; simpl in Hlen;
    try discriminate; [reflexivity|].
  cbn [length seq combine map filter fst snd flatnonzero_from].
  assert (Hhead : existsb (Nat.eqb (S i))
                    (map S (flatnonzero_from (S i) (map negb mask))) = false).
  { destruct (existsb _ _) eqn:E; [|reflexivity].
    apply existsb_eqb_In, in_map_iff in E. destruct E as (x & Ex & Hx).
    apply flatnonzero_from_In in Hx. destruct Hx as (k & Ek & _). lia. }
  destruct b; cbn [negb app map existsb].
  - rewrite Hhead. cbn [negb map snd]. f_equal. apply IH. lia.
  - rewrite Nat.eqb_refl. cbn [orb negb].
    rewrite <- (IH (S i) rows) by lia. f_equal.
    apply filter_ext_in. intros [j r] Hin. cbn [fst].
    apply in_combine_l in Hin. apply in_seq in Hin.
    destruct (Nat.eqb_spec (S j) (S i)) as [E|_]; [lia|]. reflexivity.
Qed.

Lemma keep_rows_masked (mask : list bool) (rows : matrix) :
  length mask = length rows ->
  keep_rows (map S (flatnonzero (map negb mask))) rows = masked mask rows.
Proof. apply keep_rows_from. Qed.

Lemma masked_length {A B : Type} (mask : list bool) (l : list A) (l' : list B) :
  length l = length mask -> length l' = length mask ->
  length (boolean_index l mask) = length (masked mask l').
Proof.
  unfold boolean_index, masked. rewrite !length_map. revert l l'.
  induction mask as [|b mask IH]; intros [|x l] [|y l'] Hl Hl'; simpl in *;
    try discriminate; [reflexivity|].
  destruct b; simpl; [f_equal|]; apply IH; lia.
Qed.

(** X10.  With only the species of a subset read from a square file, in
    chunks of any positive size, the weighted similarities are the product
    of the abundances with the rows and columns of the matrix that belong
    to species of the subset, in the order of the header. *)
Theorem subset_file_backend_computes_submatrix_product
  (memory : nat -> nat -> float64) (file : SimilarityFromFile.csv)
  (species_subset : list string) (chunk_size : nat)
  (relative_abundances : matrix) :
  0 < chunk_size ->
  length (SimilarityFromFile.rows file) = length (SimilarityFromFile.header file) ->
  Forall (fun r => length r = length (SimilarityFromFile.header file))
         (SimilarityFromFile.rows file) ->
  let self := init file species_subset chunk_size in
  length relative_abundances = length (species_order self) ->
  calculate_weighted_similarities memory self relative_abundances
  = matmul (submatrix (isin (SimilarityFromFile.header file) species_subset)
                      (SimilarityFromFile.rows file))
           relative_abundances.
Proof.
  intros Hcs Hrows Hsquare self Hra.
  unfold calculate_weighted_similarities, read_csv. subst self.
  unfold init, get_species_order, species_order in *.
  cbn [similarity_matrix SimilarityFromFileSubset.chunk_size __usecols __skiprows
       __species_order] in *.
  set (mask := isin (SimilarityFromFile.header file) species_subset) in *.
  assert (Hmask : length mask = length (SimilarityFromFile.header file))
    by apply length_map.
  rewrite keep_rows_masked by lia.
  assert (Hkept : map (keep_columns (flatnonzero mask))
                      (masked mask (SimilarityFromFile.rows file))
                  = submatrix mask (SimilarityFromFile.rows file)).
  { unfold submatrix. apply map_ext_in. intros r Hr.
    apply keep_columns_masked.
    unfold masked in Hr. apply in_map_iff in Hr. destruct Hr as ([b r'] & E & Hin).
    simpl in E. subst r'. apply filter_In in Hin. destruct Hin as [Hin _].
    apply in_combine_r in Hin. rewrite Forall_forall in Hsquare.
    rewrite (Hsquare r Hin). lia. }
  rewrite Hkept.
  destruct (Nat.eqb_spec chunk_size 0) as [E|_]; [lia|].
  rewrite bind_Ok. apply store_all_chunks; [assumption|].
  rewrite empty_length. cbn [fst SimilarityFromFile.shape].
  rewrite Hra. unfold submatrix. rewrite length_map.
  apply masked_length; lia.
Qed.

Lemma subset_file_backend_computes_submatrix_product_witness :
  let file :=
    SimilarityFromFile.mk_csv ["a"; "b"; "c"]%string
      [[one; of_Q (1 # 2); of_Q (1 # 4)];
       [of_Q (1 # 2); one; of_Q (1 # 8)];
       [of_Q (1 # 4); of_Q (1 # 8); one]] in
  let ra := [[of_Q (1 # 3)]; [of_Q (2 # 3)]] in
  calculate_weighted_similarities (fun _ _ => NaN)
    (init file ["c"; "a"]%string 2) ra
  = matmul [[one; of_Q (1 # 4)]; [of_Q (1 # 4); one]] ra.
Proof.
  intros file ra.
  apply (subset_file_backend_computes_submatrix_product (fun _ _ => NaN) file
           ["c"; "a"]%string 2 ra).
  - lia.
  - reflexivity.
  - repeat constructor.
  - reflexivity.
Defined.

Lemma boolean_index_filter {A : Type} (f : A -> bool) (l : list A) :
  boolean_index l (map f l) = filter f l.
Proof.
  unfold boolean_index. induction l as [|x l IH]; simpl; [reflexivity|].
  destruct (f x); simpl; [f_equal|]; exact IH.
Qed.

Lemma boolean_index_nth {A : Type} (d : A) (l : list A) (mask : list bool) :
  length mask = length l ->
  boolean_index l mask = map (fun j => nth j l d) (flatnonzero mask).
Proof.
  unfold boolean_index, flatnonzero. revert mask.
  induction l as [|x l IH]; intros [|b mask] Hlen; simpl in *;
    try discriminate; [reflexivity|].
  rewrite flatnonzero_from_shift, map_app, map_map. cbn [nth].
  rewrite <- IH by lia. destruct b; reflexivity.
Qed.

Lemma flatnonzero_lengths (i : nat) (mask : list bool) :
  length (flatnonzero_from i mask) + length (flatnonzero_from i (map negb mask))
  = length mask.
Proof.
  revert i. induction mask as [|b mask IH]; intros i; simpl; [reflexivity|].
  rewrite !length_app. specialize (IH (S i)). destruct b; simpl; lia.
Qed.

(** X9.  The three results of [__get_species_order] fit together: the
    species order is the header restricted to the subset, its i-th entry is
    the header at column [usecols[i]]; a data row is skipped exactly when
    its column is not used; every column is either used or its row skipped;
    and the header line is never skipped. *)
Theorem species_order_matches_columns_and_rows (file : SimilarityFromFile.csv)
  (species_subset : list string) :
  let species := SimilarityFromFile.header file in
  let '(species_order, usecols, skiprows) :=
    get_species_order file species_subset in
  species_order
  = filter (fun s => existsb (String.eqb s) species_subset) species /\
  species_order = map (fun j => nth j species ""%string) usecols /\
  (forall i, i < length species ->
     (In i usecols <-> In (nth i species ""%string) species_subset) /\
     (In (S i) skiprows <-> ~ In i usecols)) /\
  length usecols + length skiprows = length species /\
  ~ In 0 skiprows.
Proof.
  intros species. unfold get_species_order. fold species.
  set (member := fun s => existsb (String.eqb s) species_subset).
  change (isin species species_subset) with (map member species).
  split; [apply boolean_index_filter|].
  split; [apply boolean_index_nth, length_map|].
  split; [|split].
  - intros i Hi.
    assert (Hnth : nth i (map member species) false
                   = member (nth i species ""%string)).
    { rewrite (nth_indep _ false (member ""%string)) by (rewrite length_map; lia).
      apply map_nth. }
    split.
    + rewrite flatnonzero_In, Hnth. unfold member. rewrite existsb_exists.
      split.
      * intros (s & Hs & E). apply String.eqb_eq in E. subst. assumption.
      * intros Hin. eexists. split; [exact Hin|apply String.eqb_refl].
    + rewrite in_map_iff, flatnonzero_In. split.
      * intros (x & E & Hx). inversion E. subst x.
        apply flatnonzero_In in Hx.
        rewrite (nth_indep _ false (negb false)) in Hx
          by (rewrite !length_map; lia).
        rewrite map_nth in Hx. intros Ht. rewrite Ht in Hx. discriminate.
      * intros Hn. exists i. split; [reflexivity|].
        apply flatnonzero_In.
        rewrite (nth_indep _ false (negb false)) by (rewrite !length_map; lia).
        rewrite map_nth. destruct (nth i (map member species) false);
          [contradiction|reflexivity].
  - rewrite length_map. unfold flatnonzero.
    rewrite flatnonzero_lengths, length_map. reflexivity.
  - rewrite in_map_iff. intros (x & E & _). discriminate.
Qed.

(** ** Building metacommunities (metacommunity.py, the module functions) *)

Module Assembly.

(** The exceptions of the assembly functions. *)
Inductive error : Type :=
| InvalidArgumentError (msg : string)
| TypeError
| KeyError (column : string).

Inductive outcome (A : Type) : Type :=
| Returns (a : A)
| Raises (e : error).

Arguments Returns {A} a.
Arguments Raises {A} e.

Definition and_then {A B : Type} (o : outcome A) (k : A -> outcome B)
  : outcome B :=
  match o with
  | Returns a => k a
  | Raises e => Raises e
  end.

(** [enumerate(l)], counting from [i]. *)
Fixpoint enumerate_from {A : Type} (i : nat) (l : list A) : list (nat * A) :=
  match l with
  | [] => []
  | a :: l' => (i, a) :: enumerate_from (S i) l'
  end.

Section Pairwise.

(** A data frame of counts, the concatenation of two of them, and a
    metacommunity, built by [make_metacommunity]. *)
Variables D M : Type.
Variable concat : D -> D -> D.
Variable make_metacommunity : D -> outcome M.

(** The inner loop [for j, (_, group_j) in enumerate(groups)] for one
    [group_i]; [done] is [pairwise_metacommunities] so far. *)
Fixpoint inner_loop (i : nat) (group_i : D) (groups : list (nat * D))
  (done : list M) : outcome (list M) :=
  match groups with
  | [] => Returns done
  | (j, group_j) :: groups' =>
      if Nat.ltb i j then
        and_then (make_metacommunity (concat group_i group_j))
                 (fun pair_ij => inner_loop i group_i groups' (done ++ [pair_ij]))
      else inner_loop i group_i groups' done
  end.

(** The outer loop [for i, (_, group_i) in enumerate(groups)]. *)
Fixpoint outer_loop (all rest : list (nat * D)) (done : list M)
  : outcome (list M) :=
  match rest with
  | [] => Returns done
  | (i, group_i) :: rest' =>
      and_then (inner_loop i group_i all done)
               (fun done' => outer_loop all rest' done')
  end.

(** [make_pairwise_metacommunities], from the groups of [groupby] on. *)
Definition make_pairwise_metacommunities (groups : list D) : outcome (list M) :=
  let enumerated := enumerate_from 0 groups in
  outer_loop enumerated enumerated [].

(** The pairs of different groups, each pair once, the earlier group
    first, in lexicographic order. *)
Fixpoint pairs (groups : list D) : list D :=
  match groups with
  | [] => []
  | g :: groups' => map (concat g) groups' ++ pairs groups'
  end.

(** All of a list of metacommunities built in order, up to the first
    error. *)
Fixpoint make_all (l : list D) : outcome (list M) :=
  match l with
  | [] => Returns []
  | d :: l' =>
      and_then (make_metacommunity d)
               (fun m => and_then (make_all l') (fun ms => Returns (m :: ms)))
  end.

End Pairwise.

End Assembly.

Import Assembly.

Section PairwiseFacts.

Variables D M : Type.
Variable concat : D -> D -> D.
Variable make_metacommunity : D -> outcome M.

Lemma make_all_app (l l' : list D) :
  make_all D M make_metacommunity (l ++ l')
  = and_then (make_all D M make_metacommunity l)
             (fun ms => and_then (make_all D M make_metacommunity l')
                                 (fun ms' => Returns (ms ++ ms'))).
Proof.
  induction l as [|d l IH]; simpl.
  - destruct (make_all D M make_metacommunity l'); reflexivity.
  - destruct (make_metacommunity d); simpl; [|reflexivity].
    rewrite IH. destruct (make_all D M make_metacommunity l); simpl;
      [|reflexivity].
    destruct (make_all D M make_metacommunity l'); reflexivity.
Qed.

(** The inner loop skips the groups up to [i] and pairs [group_i] with
    every later one. *)
Lemma inner_loop_spec (i : nat) (group_i : D) (groups : list D) (k : nat)
  (done : list M) :
  inner_loop D M concat make_metacommunity i group_i (enumerate_from k groups) done
  = and_then (make_all D M make_metacommunity
                (map (concat group_i) (skipn (S i - k) groups)))
             (fun ms => Returns (done ++ ms)).
Proof.
  revert k done. induction groups as [|g groups IH]; intros k done.
  - simpl. rewrite skipn_nil. simpl. rewrite app_nil_r. reflexivity.
  - cbn [enumerate_from inner_loop]. destruct (Nat.ltb_spec i k) as [Hlt|Hge].
    + replace (S i - k) with 0 by lia. cbn [skipn map make_all].
      destruct (make_metacommunity (concat group_i g)); simpl; [|reflexivity].
      rewrite IH. replace (S i - S k) with 0 by lia. cbn [skipn].
      destruct (make_all D M make_metacommunity (map (concat group_i) groups));
        simpl; [|reflexivity].
      rewrite <- app_assoc. reflexivity.
    + rewrite IH. replace (S i - k) with (S (i - k)) by lia.
      replace (S i - S k) with (i - k) by lia. reflexivity.
Qed.

Lemma outer_loop_spec (all rest : list D) (k : nat) (done : list M) :
  k + length rest = length all ->
  skipn k all = rest ->
  outer_loop D M concat make_metacommunity (enumerate_from 0 all)
    (enumerate_from k rest) done
  = and_then (make_all D M make_metacommunity (pairs D concat rest))
             (fun ms => Returns (done ++ ms)).
Proof.
  revert k done. induction rest as [|g rest IH]; intros k done Hlen Hskip.
  - simpl. rewrite app_nil_r. reflexivity.
  - cbn [enumerate_from outer_loop pairs]. rewrite inner_loop_spec.
    rewrite Nat.sub_0_r.
    assert (Hrest : skipn (S k) all = rest).
    { replace (S k) with (1 + k) by lia. rewrite <- skipn_skipn, Hskip.
      reflexivity. }
    rewrite Hrest, make_all_app.
    destruct (make_all D M make_metacommunity (map (concat g) rest)) as [ms|e];
      simpl; [|reflexivity].
    rewrite (IH (S k)); [|simpl in Hlen; lia|assumption].
    destruct (make_all D M make_metacommunity (pairs D concat rest)); simpl;
      [|reflexivity].
    rewrite app_assoc. reflexivity.
Qed.

Lemma pairs_length (groups : list D) :
  2 * length (pairs D concat groups) = length groups * (length groups - 1).
Proof.
  induction groups as [|g groups IH]; [reflexivity|].
  cbn [pairs length]. rewrite length_app, length_map. nia.
Qed.

Lemma make_all_length (l : list D) (ms : list M) :
  make_all D M make_metacommunity l = Returns ms -> length ms = length l.
Proof.
  revert ms. induction l as [|d l IH]; simpl; intros ms E.
  - inversion E. reflexivity.
  - destruct (make_metacommunity d); [|discriminate]. simpl in E.
    destruct (make_all D M make_metacommunity l) as [ms'|]; [|discriminate].
    inversion E. simpl. f_equal. apply IH. reflexivity.
Qed.

(** X11.  [make_pairwise_metacommunities] builds the metacommunity of every
    pair of different groups once, the earlier group first, in
    lexicographic order of the pairs, and stops at the first pair whose
    construction raises; when it returns for n groups, it returns
    n (n - 1) / 2 metacommunities. *)
Theorem pairwise_metacommunities_are_all_pairs (groups : list D) :
  make_pairwise_metacommunities D M concat make_metacommunity groups
  = make_all D M make_metacommunity (pairs D concat groups) /\
  forall ms,
    make_pairwise_metacommunities D M concat make_metacommunity groups
    = Returns ms ->
    2 * length ms = length groups * (length groups - 1).
Proof.
  assert (E : make_pairwise_metacommunities D M concat make_metacommunity groups
              = make_all D M make_metacommunity (pairs D concat groups)).
  { unfold make_pairwise_metacommunities.
    rewrite (outer_loop_spec groups groups 0 []); [|reflexivity|reflexivity].
    destruct (make_all D M make_metacommunity (pairs D concat groups));
      reflexivity. }
  split; [exact E|].
  intros ms Hms. rewrite E in Hms. apply make_all_length in Hms.
  rewrite Hms. apply pairs_length.
Qed.

End PairwiseFacts.

(** ** The counts and [subset_subcommunities] *)

Module Counts.

(** A cell of the data frame of counts. *)
Inductive cell : Type :=
| Str (s : string)
| Int (z : Z).

Definition cell_eqb (x y : cell) : bool :=
  match x, y with
  | Str s, Str s' => String.eqb s s'
  | Int z, Int z' => Z.eqb z z'
  | _, _ => false
  end.

(** A data frame: its column labels and its rows. *)
Record DataFrame : Type := mk {
  columns : list string;
  rows : list (list cell)
}.

Fixpoint position (column : string) (columns : list string) : option nat :=
  match columns with
  | [] => None
  | c :: columns' =>
      if String.eqb column c then Some 0
      else option_map S (position column columns')
  end.

(** [df[column]], a [KeyError] when there is no such column. *)
Definition getitem (df : DataFrame) (column : string) : outcome (list cell) :=
  match position column (columns df) with
  | Some j => Returns (map (fun r => nth j r (Str "")) (rows df))
  | None => Raises (KeyError column)
  end.

(** [series.isin(values)] *)
Definition isin (series values : list cell) : list bool :=
  map (fun x => existsb (cell_eqb x) values) series.

(** [df[mask]]: the rows at which the boolean series holds True. *)
Definition getitem_mask (df : DataFrame) (mask : list bool) : DataFrame :=
  {| columns := columns df;
     rows := map fst (filter snd (combine (rows df) mask)) |}.

(** [pandas.unique]: the distinct values in order of first appearance. *)
Fixpoint unique (seen values : list cell) : list cell :=
  match values with
  | [] => []
  | x :: values' =>
      if existsb (cell_eqb x) seen then unique seen values'
      else x :: unique (x :: seen) values'
  end.

Definition subset_subcommunities (counts : DataFrame)
  (subcommunities : option (list cell)) (subcommunity_column : string)
  : outcome DataFrame :=
  match subcommunities with
  | None => Returns counts
  | Some subcommunities =>
      and_then (getitem counts subcommunity_column)
               (fun column =>
                  Returns (getitem_mask counts (isin column subcommunities)))
  end.

End Counts.

Import Counts.

Lemma getitem_mask_isin (df : DataFrame) (j : nat) (values : list cell) :
  getitem_mask df (isin (map (fun r => nth j r (Str "")) (rows df)) values)
  = {| columns := columns df;
       rows := filter (fun r => existsb (cell_eqb (nth j r (Str ""))) values)
                      (rows df) |}.
Proof.
  unfold getitem_mask, isin. f_equal. rewrite map_map.
  induction (rows df) as [|r l IH]; simpl; [reflexivity|].
  destruct (existsb _ values); simpl; [f_equal|]; exact IH.
Qed.

Lemma filter_idempotent {A : Type} (f : A -> bool) (l : list A) :
  filter f (filter f l) = filter f l.
Proof.
  induction l as [|x l IH]; simpl; [reflexivity|].
  destruct (f x) eqn:E; simpl; [rewrite E; f_equal|]; exact IH.
Qed.

(** X12.  [subset_subcommunities] with no subcommunities given returns the
    counts as they are, whatever their columns.  Given subcommunities it
    raises [KeyError] when the column is missing; otherwise it keeps, in
    order, exactly the rows whose subcommunity is one of those given, and
    applying it again to its result changes nothing. *)
Theorem subset_subcommunities_selects_rows (counts : DataFrame)
  (subcommunities : list cell) (subcommunity_column : string) :
  subset_subcommunities counts None subcommunity_column = Returns counts /\
  match position subcommunity_column (columns counts) with
  | None =>
      subset_subcommunities counts (Some subcommunities) subcommunity_column
      = Raises (KeyError subcommunity_column)
  | Some j =>
      let kept :=
        {| columns := columns counts;
           rows := filter (fun r => existsb (cell_eqb (nth j r (Str "")))
                                            subcommunities)
                          (rows counts) |} in
      subset_subcommunities counts (Some subcommunities) subcommunity_column
      = Returns kept /\
      subset_subcommunities kept (Some subcommunities) subcommunity_column
      = Returns kept
  end.
Proof.
  split; [reflexivity|].
  destruct (position subcommunity_column (columns counts)) as [j|] eqn:E.
  - cbn zeta. unfold subset_subcommunities, getitem. cbn [columns].
    rewrite E. cbn [and_then]. rewrite !getitem_mask_isin. cbn [columns rows].
    rewrite filter_idempotent. split; reflexivity.
  - unfold subset_subcommunities, getitem. rewrite E. reflexivity.
Qed.

(** ** [make_similarity] and [make_metacommunity] of metacommunity.py *)

Module MakeMetacommunity.

(** A similarity matrix with its labels, as a pandas data frame. *)
Record labelled : Type := mk_labelled {
  index : list string;
  labels : list string;
  values : matrix
}.

(** The argument [similarity_matrix], by class. *)
Inductive source : Type :=
| OfDataFrame (df : labelled)
| OfStr (file : SimilarityFromFile.csv)
| OfOther (type_name : string).

Inductive backend : Type :=
| FromMemory (s : SimilarityFromMemory.t) (species_order : list string)
| FromFile (s : SimilarityFromFileSubset.t).

Definition species_order (similarity : backend) : list string :=
  match similarity with
  | FromMemory _ species_order => species_order
  | FromFile s => SimilarityFromFileSubset.species_order s
  end.

(** The species names among the cells of a column; a number is equal to
    no header string. *)
Fixpoint names (cells : list cell) : list string :=
  match cells with
  | [] => []
  | Str s :: cells' => s :: names cells'
  | Int _ :: cells' => names cells'
  end.

Section Constructors.

(** The constructor of [SimilarityFromMemory], which reindexes the data
    frame to the species of the subset with pandas' [reindex]. *)
Variable SimilarityFromMemory_new :
  labelled -> list string -> outcome (SimilarityFromMemory.t * list string).

Definition invalid (type_name : string) : string :=
  ("similarity_matrix must be a str or a pandas.DataFrame, but"
   ++ "was: " ++ type_name ++ ".")%string.

Definition make_similarity (similarity_matrix : source)
  (species_subset : list cell) (chunk_size : nat) : outcome backend :=
  match similarity_matrix with
  | OfOther type_name => Raises (InvalidArgumentError (invalid type_name))
  | OfDataFrame df =>
      and_then (SimilarityFromMemory_new df (names species_subset))
               (fun s => Returns (FromMemory (fst s) (snd s)))
  | OfStr file =>
      Returns (FromFile (SimilarityFromFileSubset.init file
                           (names species_subset) chunk_size))
  end.

(** The parameters of [Abundance.__init__] after [self]; none has a
    default. *)
Definition Abundance_parameters : list string := ["counts"%string].

(** A call binds its arguments when there are no more positional
    arguments than parameters, every keyword names one of the remaining
    parameters, no keyword comes twice and no parameter is left unbound;
    otherwise Python raises [TypeError]. *)
Definition binds (parameters : list string) (positional : nat)
  (keywords : list string) : bool :=
  Nat.leb positional (length parameters) &&
  forallb (fun k => existsb (String.eqb k) (skipn positional parameters))
          keywords &&
  Nat.eqb (positional + length (nodup string_dec keywords)) (length parameters) &&
  Nat.eqb (length (nodup string_dec keywords)) (length keywords).

(** [Abundance(counts_subset, similarity.species_order,
    subcommunity_column=..., species_column=..., count_column=...)] *)
Definition Abundance_call (counts_subset : DataFrame)
  (species_order : list string) : outcome DataFrame :=
  if binds Abundance_parameters 2
       ["subcommunity_column"; "species_column"; "count_column"]%string
  then Returns counts_subset
  else Raises TypeError.

Definition make_metacommunity (counts : DataFrame)
  (similarity_matrix : source) (subcommunities : option (list cell))
  (chunk_size : nat) (subcommunity_column species_column count_column : string)
  : outcome (backend * DataFrame) :=
  and_then (subset_subcommunities counts subcommunities subcommunity_column)
    (fun counts_subset =>
  and_then (getitem counts_subset species_column)
    (fun species =>
  let species_subset := unique [] species in
  and_then (make_similarity similarity_matrix species_subset chunk_size)
    (fun similarity =>
  and_then (Abundance_call counts_subset (species_order similarity))
    (fun abundance => Returns (similarity, abundance))))).

End Constructors.

End MakeMetacommunity.

Import MakeMetacommunity.

(** X13.  [make_metacommunity] never returns a metacommunity: it calls
    [Abundance] with two positional and three keyword arguments while
    [Abundance.__init__] takes [counts] alone, so when the counts can be
    subset and have the species column and the similarity is a data frame
    whose backend can be built, or a path, the call raises [TypeError];
    every other input raises earlier. *)
Theorem make_metacommunity_never_returns
  (SimilarityFromMemory_new :
     labelled -> list string -> outcome (SimilarityFromMemory.t * list string))
  (counts : DataFrame) (similarity_matrix : source)
  (subcommunities : option (list cell)) (chunk_size : nat)
  (subcommunity_column species_column count_column : string) :
  (exists e,
     make_metacommunity SimilarityFromMemory_new counts similarity_matrix
       subcommunities chunk_size subcommunity_column species_column
       count_column = Raises e) /\
  (forall counts_subset species similarity,
     subset_subcommunities counts subcommunities subcommunity_column
     = Returns counts_subset ->
     getitem counts_subset species_column = Returns species ->
     make_similarity SimilarityFromMemory_new similarity_matrix
       (unique [] species) chunk_size = Returns similarity ->
     make_metacommunity SimilarityFromMemory_new counts similarity_matrix
       subcommunities chunk_size subcommunity_column species_column
       count_column = Raises TypeError).
Proof.
  split.
  - unfold make_metacommunity.
    destruct (subset_subcommunities _ _ _) as [counts_subset|e];
      [|eexists; reflexivity].
    cbn [and_then].
    destruct (getitem counts_subset species_column) as [species|e];
      [|eexists; reflexivity].
    cbn [and_then].
    destruct (make_similarity _ _ _ _) as [similarity|e];
      [|eexists; reflexivity].
    exists TypeError. reflexivity.
  - intros counts_subset species similarity Hs Hg Hm.
    unfold make_metacommunity. rewrite Hs. cbn [and_then]. rewrite Hg.
    cbn [and_then]. rewrite Hm. reflexivity.
Qed.

(** ** Weighted similarities of rescaled abundances *)













(** ** The identity as similarity matrix *)

(** The similarity matrix of [n] species that are similar to themselves
    only. *)
Definition identity (n : nat) : matrix :=
  map (fun i => map (fun j => if Nat.eqb i j then one else zero) (seq 0 n))
      (seq 0 n).

Lemma fmul_zero_l (x : float64) : finite x = true -> (zero * x)%float = zero.
Proof.
  destruct x; try discriminate. intros _. unfold zero. simpl. f_equal. ring.
Qed.

Lemma fmul_one_l (x : float64) : finite x = true -> (one * x)%float = x.
Proof.
  destruct x; try discriminate. intros _. unfold one. simpl. f_equal. ring.
Qed.

Lemma fadd_zero_r (x : float64) : (x + zero)%float = x.
Proof. destruct x; try reflexivity. unfold zero. simpl. f_equal. ring. Qed.

Lemma dot_zeros (c : vector) (s : nat) (g : nat -> float64) :
  Forall (fun x => finite x = true) c ->
  (forall j, s <= j -> g j = zero) ->
  dot (map g (seq s (length c))) c = zero.
Proof.
  intros Hc. revert s. induction Hc as [|x c Hx _ IH]; intros s Hg;
    [reflexivity|].
  cbn [length seq map]. change (dot (g s :: ?u) (x :: c))
    with (g s * x + dot u c)%float.
  rewrite IH by (intros j Hj; apply Hg; lia).
  rewrite Hg by lia. rewrite fmul_zero_l by assumption. reflexivity.
Qed.

Lemma dot_unit (i : nat) (c : vector) (s : nat) :
  Forall (fun x => finite x = true) c ->
  s <= i < s + length c ->
  dot (map (fun j => if Nat.eqb i j then one else zero) (seq s (length c))) c
  = nth (i - s) c NaN.
Proof.
  intros Hc. revert s. induction Hc as [|x c Hx Hc IH]; intros s Hi;
    [simpl in Hi; lia|].
  cbn [length seq map].
  change (dot (?a :: ?u) (x :: c)) with (a * x + dot u c)%float.
  destruct (Nat.eqb_spec i s) as [E|Hne].
  - subst s. rewrite Nat.sub_diag. cbn [nth].
    rewrite dot_zeros; [|assumption|].
    + rewrite fmul_one_l by assumption. apply fadd_zero_r.
    + intros j Hj. destruct (Nat.eqb_spec i j); [lia|reflexivity].
  - rewrite IH by (simpl in Hi; lia).
    rewrite fmul_zero_l by assumption. rewrite fadd_zero_l.
    replace (i - s) with (S (i - S s)) by lia. reflexivity.
Qed.

Lemma list_eta {A : Type} (d : A) (l : list A) :
  map (fun j => nth j l d) (seq 0 (length l)) = l.
Proof.
  induction l as [|x l IH]; [reflexivity|].
  cbn [length seq map nth]. f_equal.
  rewrite <- seq_shift, map_map. exact IH.
Qed.

Lemma matmul_rows_identity (P : matrix) :
  all_finite P -> rectangular (ncols P) P ->
  matmul_rows (identity (length P)) P = P.
Proof.
  intros Hf Hrect. unfold matmul_rows, identity. rewrite map_map.
  etransitivity; [|apply (list_eta [] P)].
  apply map_ext_in. intros i Hi. apply in_seq in Hi.
  assert (Hrow : length (nth i P []) = ncols P).
  { unfold rectangular in Hrect. rewrite Forall_forall in Hrect.
    apply Hrect, nth_In. lia. }
  etransitivity; [|apply (list_eta NaN (nth i P []))]. rewrite Hrow.
  unfold Numpy.columns. rewrite map_map. apply map_ext_in. intros j Hj.
  apply in_seq in Hj.
  assert (Hcol : length (col j P) = length P) by apply length_map.
  rewrite <- Hcol at 1. rewrite dot_unit.
  - rewrite Nat.sub_0_r. unfold col.
    rewrite (nth_indep _ NaN (nth j [] NaN)) by (rewrite length_map; lia).
    apply (map_nth (fun r => nth j r NaN)).
  - unfold col. apply Forall_map, Forall_forall. intros r Hr.
    unfold all_finite, rectangular in *. rewrite Forall_forall in Hf, Hrect.
    specialize (Hf r Hr). rewrite Forall_forall in Hf. apply Hf, nth_In.
    rewrite (Hrect r Hr). lia.
  - rewrite Hcol. lia.
Qed.

Lemma identity_square (n : nat) :
  forallb (fun r => Nat.eqb (length r) n) (identity n) = true.
Proof.
  apply forallb_forall. intros r Hr. unfold identity in Hr.
  apply in_map_iff in Hr. destruct Hr as (i & E & _). subst r.
  rewrite length_map, length_seq. apply Nat.eqb_refl.
Qed.

(** X15.  With the identity as similarity matrix (every species similar to
    itself only) the in-memory backends return the abundances they are
    given, for every finite abundance matrix. *)
Theorem identity_similarity_returns_abundances (relative_abundances : matrix) :
  all_finite relative_abundances ->
  rectangular (ncols relative_abundances) relative_abundances ->
  let similarity := identity (length relative_abundances) in
  SimilarityFromArray.weighted_similarities (SimilarityFromArray.mk similarity)
    relative_abundances = Ok relative_abundances /\
  SimilarityFromMemory.calculate_weighted_similarities
    (SimilarityFromMemory.mk similarity) relative_abundances
  = Ok relative_abundances.
Proof.
  intros Hf Hrect similarity.
  assert (E : matmul similarity relative_abundances = Ok relative_abundances).
  { unfold matmul, similarity. rewrite identity_square.
    rewrite matmul_rows_identity by assumption. reflexivity. }
  split; exact E.
Qed.

Lemma identity_similarity_returns_abundances_witness :
  let ra := [[of_Q (1 # 2); zero]; [of_Q (1 # 4); of_Q (1 # 4)]] in
  SimilarityFromArray.weighted_similarities
    (SimilarityFromArray.mk (identity 2)) ra = Ok ra.
Proof.
  intros ra.
  destruct (identity_similarity_returns_abundances ra) as [E _].
  - repeat constructor.
  - repeat constructor.
  - exact E.
Defined.
